(** * time_fastmcp_server: timezone resolution and time conversion

    A shallow embedding of [src/main.py] (the two tools [get_current_time]
    and [convert_time] with their helpers [get_local_tz] and
    [get_zoneinfo]) together with the parts of the Python runtime they call:
    string stripping and [%]-formatting, binary64 floats, [strptime] with
    the format [%H:%M], proleptic Gregorian [datetime] arithmetic and the
    [tzinfo] protocol of [zoneinfo.ZoneInfo].

    Modelling conventions.
    - A Python [str] is a [string]; the text of a non-ASCII literal is its
      UTF-8 encoding.  The digit class [\d] of the [strptime] pattern is the
      ASCII digits ['0'..'9'].
    - A [timedelta] is a whole number of seconds in [Z]: the offsets handed
      out by [zoneinfo] carry no microseconds.
    - A [float] is a [spec_float] at precision 53 and maximal exponent 1024;
      the primitive floats of the kernel, which the Standard Library
      specifies by the same operations, serve to evaluate them in proofs.
    - An exception is a value [exn] (class and [str] text); a call that may
      raise returns [result A].
    - The zone database, the process configuration and the clock are read
      from an explicit environment [env]. *)

From Stdlib Require Import ZArith List String Ascii Bool Lia.
From Stdlib Require Import Floats.SpecFloat DecimalString.
From Stdlib Require Floats Uint63.
Import ListNotations.

Local Open Scope string_scope.
Local Open Scope Z_scope.

(** [lia] with division and remainder by constants *)
Ltac Zify.zify_post_hook ::= Z.to_euclidean_division_equations.

(** ** Exceptions and the error monad *)

Inductive exn_class : Type :=
| ValueErrorC
| OverflowErrorC
| ZoneInfoNotFoundErrorC
| OSErrorC
| TypeErrorC.

Record exn : Type := Raise { exn_cls : exn_class; exn_str : string }.

Definition ValueError (msg : string) : exn := Raise ValueErrorC msg.
Definition OverflowError (msg : string) : exn := Raise OverflowErrorC msg.

Inductive result (A : Type) : Type :=
| Ok (a : A)
| Err (e : exn).
Arguments Ok {A} a.
Arguments Err {A} e.

Definition bind {A B : Type} (c : result A) (k : A -> result B) : result B :=
  match c with
  | Ok a => k a
  | Err e => Err e
  end.

Declare Scope py_scope.
Delimit Scope py_scope with py.
Notation "x <- c ;; k" := (bind c (fun x => k))
  (at level 61, c at next level, right associativity) : py_scope.
Local Open Scope py_scope.

(** [try: c except ValueError: raise e'] *)
Definition except_ValueError {A : Type} (c : result A) (e' : exn) : result A :=
  match c with
  | Ok a => Ok a
  | Err e =>
      match exn_cls e with
      | ValueErrorC => Err e'
      | _ => Err e
      end
  end.

(** [try: c except Exception as e: raise h(e)]; every class of [exn_class]
    derives from [Exception]. *)
Definition except_Exception {A : Type} (c : result A) (h : exn -> exn)
  : result A :=
  match c with
  | Ok a => Ok a
  | Err e => Err (h e)
  end.

(** ** Python strings *)

Module PyStr.

Definition is_empty (s : string) : bool :=
  match s with
  | EmptyString => true
  | String _ _ => false
  end.

(** [s.rstrip(c)] for a one-character argument. *)
Fixpoint rstrip (c : ascii) (s : string) : string :=
  match s with
  | EmptyString => EmptyString
  | String a r =>
      let r' := rstrip c r in
      if is_empty r' && Ascii.eqb a c then EmptyString else String a r'
  end.

(** ["%d" % n] for [0 <= n]. *)
Definition decimal (n : Z) : string :=
  NilZero.string_of_uint (N.to_uint (Z.to_N n)).

Fixpoint zeros (k : nat) : string :=
  match k with
  | O => EmptyString
  | S k' => String "0" (zeros k')
  end.

(** ["%0wd" % n] for [0 <= n]: at least [w] digits, padded with zeros. *)
Definition zfill (w : nat) (n : Z) : string :=
  let s := decimal n in
  zeros (w - String.length s) ++ s.


End PyStr.

(** ** Python floats (IEEE 754 binary64) *)

Module PyFloat.

Definition prec : Z := 53.
Definition emax : Z := 1024.

Definition float : Type := spec_float.

(** [float(n)] for an [int] [n]: round to nearest, ties to even. *)
Definition of_int (n : Z) : float := binary_normalize prec emax n 0 false.

(** [x / y] on floats. *)
Definition div (x y : float) : float := SFdiv prec emax x y.

(** [a / b] on ints (true division) is the correctly rounded quotient;
    for [|a|, |b| < 2^53] both conversions are exact and this is the
    float quotient of the two conversions. *)
Definition int_truediv (a b : Z) : float := div (of_int a) (of_int b).

(** [x.is_integer()] *)
Definition is_integer (x : float) : bool :=
  match x with
  | S754_zero _ => true
  | S754_finite _ m e =>
      if 0 <=? e then true else Z.land (Z.pos m) (Z.ones (- e)) =? 0
  | S754_infinity _ | S754_nan => false
  end.

(** The integer nearest to [m * 2^e * 10^p], ties to even: the digits
    that the correctly rounded conversion [%.pf] prints. *)
Definition scaled_round (p : nat) (m : positive) (e : Z) : Z :=
  let num := Z.pos m * 10 ^ Z.of_nat p in
  if 0 <=? e then num * 2 ^ e
  else
    let q := Z.shiftr num (- e) in
    let r := Z.land num (Z.ones (- e)) in
    match 2 * r ?= Z.shiftl 1 (- e) with
    | Lt => q
    | Gt => q + 1
    | Eq => if Z.even q then q else q + 1
    end.

Definition sign_char (s : bool) : string := if s then "-" else "+".

(** The digits of [n] (a count of [10^-p]) in fixed notation. *)
Definition fixed (p : nat) (n : Z) : string :=
  match p with
  | O => PyStr.decimal n
  | S _ =>
      PyStr.decimal (n / 10 ^ Z.of_nat p) ++ "." ++
      PyStr.zfill p (n mod 10 ^ Z.of_nat p)
  end.

(** [format(x, "+.pf")]: explicit sign, [p] digits after the point. *)
Definition format_plus_f (p : nat) (x : float) : string :=
  match x with
  | S754_zero s => sign_char s ++ fixed p 0
  | S754_finite s m e => sign_char s ++ fixed p (scaled_round p m e)
  | S754_infinity s => sign_char s ++ "inf"
  | S754_nan => "+nan"
  end.

End PyFloat.

(** ** [timedelta] *)

Module Timedelta.

(** whole seconds *)
Definition t : Type := Z.

(** [td.total_seconds()]: the microseconds divided by [10**6]. *)
Definition total_seconds (td : t) : PyFloat.float :=
  PyFloat.int_truediv (td * 1000000) 1000000.

(** [td or timedelta()] *)
Definition or_zero (td : t) : t := if td =? 0 then 0 else td.

End Timedelta.

(** ** The difference string of [convert_time] (lines 115-120) *)

Definition hours_difference (target_offset source_offset : Timedelta.t)
  : PyFloat.float :=
  PyFloat.div (Timedelta.total_seconds (target_offset - source_offset))
              (PyFloat.of_int 3600).

Definition time_diff_str (hours_difference : PyFloat.float) : string :=
  if PyFloat.is_integer hours_difference
  then PyFloat.format_plus_f 1 hours_difference ++ "h"
  else PyStr.rstrip "." (PyStr.rstrip "0" (PyFloat.format_plus_f 2 hours_difference))
       ++ "h".


(** ** [strptime(data_string, "%H:%M")] *)

Module Strptime.

Definition digit_value (c : ascii) : option Z :=
  let n := Z.of_N (N_of_ascii c) in
  if (48 <=? n) && (n <=? 57) then Some (n - 48) else None.

(** The fragment of regular expressions that the directives [%H] and [%M]
    compile to: a literal character, a digit in a range, [\d], sequence
    and ordered alternative. *)
Inductive re : Type :=
| Chr (c : ascii)
| Rng (lo hi : Z)
| Dig
| Seq (r1 r2 : re)
| Alt (r1 r2 : re).

Definition one (ok : bool) (a : ascii) (s' : string) : list (string * string) :=
  if ok then [(String a EmptyString, s')] else [].

(** Every way [r] matches a prefix of [s], as (matched text, rest), in the
    order in which a backtracking matcher tries them. *)
Fixpoint matches (r : re) (s : string) : list (string * string) :=
  match r with
  | Chr c =>
      match s with
      | String a s' => one (Ascii.eqb a c) a s'
      | EmptyString => []
      end
  | Rng lo hi =>
      match s with
      | String a s' =>
          one (match digit_value a with
               | Some v => (lo <=? v) && (v <=? hi)
               | None => false
               end) a s'
      | EmptyString => []
      end
  | Dig =>
      match s with
      | String a s' =>
          one (match digit_value a with Some _ => true | None => false end) a s'
      | EmptyString => []
      end
  | Seq r1 r2 =>
      flat_map (fun '(m1, s1) =>
                  map (fun '(m2, s2) => ((m1 ++ m2)%string, s2)) (matches r2 s1))
               (matches r1 s)
  | Alt r1 r2 => matches r1 s ++ matches r2 s
  end.

(** [%H] is [(?P<H>2[0-3]|[0-1]\d|\d)], [%M] is [(?P<M>[0-5]\d|\d)]. *)
Definition re_H : re := Alt (Seq (Chr "2") (Rng 0 3)) (Alt (Seq (Rng 0 1) Dig) Dig).
Definition re_M : re := Alt (Seq (Rng 0 5) Dig) Dig.

(** [format_regex.match(data_string)]: the first match of
    [re_H ":" re_M] at the start of the text; the groups [H] and [M] and
    what is left after the match. *)
Definition regex_match (s : string) : option (string * string * string) :=
  hd_error
    (flat_map (fun '(h, s1) =>
       flat_map (fun '(_, s2) =>
         map (fun '(m, s3) => (h, m, s3)) (matches re_M s2))
         (matches (Chr ":") s1))
       (matches re_H s)).

(** [int(s)] on a text of digits *)
Fixpoint int_from (acc : Z) (s : string) : Z :=
  match s with
  | EmptyString => acc
  | String c s' =>
      int_from (10 * acc + match digit_value c with Some v => v | None => 0 end) s'
  end.

Definition int (s : string) : Z := int_from 0 s.

(** The text of the two errors quotes its argument; the quoting is kept
    plain here, the callers below discard the text. *)
Definition quote (s : string) : string := ("'" ++ s ++ "'")%string.

(** [datetime.strptime(data_string, "%H:%M").time()]: hour and minute *)
Definition strptime_HM (data_string : string) : result (Z * Z) :=
  match regex_match data_string with
  | None =>
      Err (ValueError ("time data " ++ quote data_string
                       ++ " does not match format '%H:%M'"))
  | Some (h, m, rest) =>
      if PyStr.is_empty rest then Ok (int h, int m)
      else Err (ValueError ("unconverted data remains: " ++ rest))
  end.

(** The reading of the specification: one or two digits giving an hour
    from 0 to 23, a colon, one or two digits giving a minute from 0 to 59,
    and nothing else. *)
Fixpoint all_digits (s : string) : bool :=
  match s with
  | EmptyString => true
  | String c s' =>
      match digit_value c with Some _ => all_digits s' | None => false end
  end.

Definition field (ds : string) (v max : Z) : Prop :=
  (String.length ds = 1 \/ String.length ds = 2)%nat
  /\ all_digits ds = true /\ int ds = v /\ 0 <= v <= max.

Definition spec_HHMM (s : string) (h m : Z) : Prop :=
  exists hs ms, s = (hs ++ ":" ++ ms)%string /\ field hs h 23 /\ field ms m 59.

End Strptime.

(** ** The proleptic Gregorian calendar of [datetime] *)

Module Calendar.

Definition MINYEAR : Z := 1.
Definition MAXYEAR : Z := 9999.
Definition MAXORDINAL : Z := 3652059.

Definition DAYS_IN_MONTH (month : Z) : Z :=
  match month with
  | 1 => 31 | 2 => 28 | 3 => 31 | 4 => 30 | 5 => 31 | 6 => 30
  | 7 => 31 | 8 => 31 | 9 => 30 | 10 => 31 | 11 => 30 | 12 => 31
  | _ => -1
  end.

Definition DAYS_BEFORE_MONTH (month : Z) : Z :=
  match month with
  | 1 => 0 | 2 => 31 | 3 => 59 | 4 => 90 | 5 => 120 | 6 => 151
  | 7 => 181 | 8 => 212 | 9 => 243 | 10 => 273 | 11 => 304 | 12 => 334
  | _ => -1
  end.

Definition is_leap (year : Z) : bool :=
  (year mod 4 =? 0) && (negb (year mod 100 =? 0) || (year mod 400 =? 0)).

Definition days_before_year (year : Z) : Z :=
  let y := year - 1 in
  y * 365 + y / 4 - y / 100 + y / 400.

Definition days_in_month (year month : Z) : Z :=
  if (month =? 2) && is_leap year then 29 else DAYS_IN_MONTH month.

Definition days_before_month (year month : Z) : Z :=
  DAYS_BEFORE_MONTH month + (if (2 <? month) && is_leap year then 1 else 0).

Definition ymd2ord (year month day : Z) : Z :=
  days_before_year year + days_before_month year month + day.

Definition DI400Y : Z := 146097.
Definition DI100Y : Z := 36524.
Definition DI4Y : Z := 1461.

Definition ord2ymd (n : Z) : Z * Z * Z :=
  let n := n - 1 in
  let n400 := n / DI400Y in
  let n := n mod DI400Y in
  let year := n400 * 400 + 1 in
  let n100 := n / DI100Y in
  let n := n mod DI100Y in
  let n4 := n / DI4Y in
  let n := n mod DI4Y in
  let n1 := n / 365 in
  let n := n mod 365 in
  let year := year + n100 * 100 + n4 * 4 + n1 in
  if (n1 =? 4) || (n100 =? 4) then (year - 1, 12, 31)
  else
    let leapyear := (n1 =? 3) && (negb (n4 =? 24) || (n100 =? 3)) in
    let month := Z.shiftr (n + 50) 5 in
    let preceding :=
      DAYS_BEFORE_MONTH month + (if (2 <? month) && leapyear then 1 else 0) in
    if n <? preceding
    then
      let month := month - 1 in
      let preceding :=
        preceding
        - (DAYS_IN_MONTH month + (if (month =? 2) && leapyear then 1 else 0)) in
      (year, month, n - preceding + 1)
    else (year, month, n - preceding + 1).

Definition valid_date (year month day : Z) : Prop :=
  1 <= month <= 12 /\ 1 <= day <= days_in_month year month.

End Calendar.

(** ** [datetime] values *)

Module Datetime.

(** The fields of a [datetime] apart from its [tzinfo]. *)
Record t : Type := mk {
  year : Z; month : Z; day : Z;
  hour : Z; minute : Z; second : Z; microsecond : Z;
  fold : Z
}.

(** The invariant that the constructor of [datetime] enforces. *)
Definition valid (w : t) : Prop :=
  Calendar.MINYEAR <= year w <= Calendar.MAXYEAR
  /\ Calendar.valid_date (year w) (month w) (day w)
  /\ 0 <= hour w < 24 /\ 0 <= minute w < 60 /\ 0 <= second w < 60
  /\ 0 <= microsecond w < 1000000.

(** [datetime(year, month, day, hour, minute)]; the range checks of the
    constructor are not modelled: below its arguments are the date of a
    [datetime] and an hour and a minute out of [strptime]. *)
Definition new (year month day hour minute : Z) : t :=
  mk year month day hour minute 0 0 0.

Definition toordinal (w : t) : Z := Calendar.ymd2ord (year w) (month w) (day w).

(** seconds on the local time line *)
Definition seconds (w : t) : Z :=
  toordinal w * 86400 + hour w * 3600 + minute w * 60 + second w.

(** [w + td]: through days and seconds of day; out of the range of
    ordinals it raises [OverflowError]. *)
Definition add (w : t) (td : Timedelta.t) : result t :=
  let total := hour w * 3600 + minute w * 60 + second w + td in
  let days := toordinal w + total / 86400 in
  let secs := total mod 86400 in
  let hour := secs / 3600 in
  let rem := secs mod 3600 in
  let minute := rem / 60 in
  let second := rem mod 60 in
  if (0 <? days) && (days <=? Calendar.MAXORDINAL)
  then
    let '(y, m, d) := Calendar.ord2ymd days in
    Ok (mk y m d hour minute second (microsecond w) 0)
  else Err (OverflowError "date value out of range").

(** [w - td] *)
Definition sub (w : t) (td : Timedelta.t) : result t := add w (- td).

(** [_format_offset(off)] *)
Definition format_offset (off : option Timedelta.t) : string :=
  match off with
  | None => EmptyString
  | Some off =>
      let sign := if off <? 0 then "-" else "+" in
      let off := Z.abs off in
      let hh := off / 3600 in
      let mm := off mod 3600 / 60 in
      let ss := off mod 60 in
      (sign ++ PyStr.zfill 2 hh ++ ":" ++ PyStr.zfill 2 mm
       ++ (if (ss =? 0)%Z then EmptyString else ":" ++ PyStr.zfill 2 ss))%string
  end.

(** The date and the time of [isoformat(timespec="seconds")]: the
    microseconds are left out. *)
Definition isoformat_naive (w : t) : string :=
  (PyStr.zfill 4 (year w) ++ "-" ++ PyStr.zfill 2 (month w) ++ "-"
   ++ PyStr.zfill 2 (day w) ++ "T" ++ PyStr.zfill 2 (hour w) ++ ":"
   ++ PyStr.zfill 2 (minute w) ++ ":" ++ PyStr.zfill 2 (second w))%string.

(** [w.isoformat(timespec="seconds")] when [w.utcoffset()] is [off] *)
Definition isoformat_seconds (w : t) (off : option Timedelta.t) : string :=
  (isoformat_naive w ++ format_offset off)%string.

End Datetime.

(** ** Time zones *)

(** The methods of a [tzinfo] that the program calls. *)
Record tzinfo : Type := {
  utcoffset : Datetime.t -> Timedelta.t;
  dst : Datetime.t -> Timedelta.t;
  fromutc : Datetime.t -> result Datetime.t
}.

(** A [ZoneInfo] object.  The constructor caches its instances by key, so
    that two objects are the same object exactly when their keys are equal. *)
Record ZoneInfo : Type := { key : string; rules : tzinfo }.

Definition same_object (a b : ZoneInfo) : bool := String.eqb (key a) (key b).

(** An aware [datetime] *)
Record aware : Type := { fields : Datetime.t; zone : ZoneInfo }.

Definition aware_utcoffset (a : aware) : Timedelta.t :=
  utcoffset (rules (zone a)) (fields a).

Definition aware_dst (a : aware) : Timedelta.t :=
  dst (rules (zone a)) (fields a).

Definition aware_isoformat_seconds (a : aware) : string :=
  Datetime.isoformat_seconds (fields a) (Some (aware_utcoffset a)).

(** [a.astimezone(tz)]: the same object for its own zone; otherwise the
    fields less the offset, handed to [tz.fromutc]. *)
Definition astimezone (a : aware) (tz : ZoneInfo) : result aware :=
  if same_object tz (zone a) then Ok a
  else
    let myoffset := aware_utcoffset a in
    utc <- Datetime.sub (fields a) myoffset ;;
    w <- fromutc (rules tz) utc ;;
    Ok {| fields := w; zone := tz |}.

(** The instant of an aware [datetime]: seconds of UTC. *)
Definition instant (a : aware) : Z :=
  Datetime.seconds (fields a) - aware_utcoffset a.

(** What is required of a zone: [fromutc] returns a [datetime] and the
    offset found for it leads back to the UTC time it was made from; offsets
    are less than a day. *)
Definition tz_coherent (z : tzinfo) : Prop :=
  (forall u w, Datetime.valid u -> fromutc z u = Ok w ->
     Datetime.valid w /\ Datetime.seconds w - utcoffset z w = Datetime.seconds u)
  /\ (forall w, -86400 < utcoffset z w < 86400).

(** ** The environment of a call *)

Record env : Type := {
  (** [args.local_timezone], the [--local-timezone] option *)
  local_timezone : option string;
  (** [datetime.now().astimezone(tz=None).tzinfo], by its [str] *)
  system_tzinfo : option string;
  (** the zone database behind [ZoneInfo(key)] *)
  zoneinfo_db : string -> result tzinfo;
  (** the clock, as the fields of the current UTC time *)
  utcnow : Datetime.t
}.

(** [ZoneInfo(key)] *)
Definition new_ZoneInfo (E : env) (key : string) : result ZoneInfo :=
  r <- zoneinfo_db E key ;; Ok {| key := key; rules := r |}.

(** [datetime.now(tz)] *)
Definition now (E : env) (tz : ZoneInfo) : result aware :=
  w <- fromutc (rules tz) (utcnow E) ;; Ok {| fields := w; zone := tz |}.

(** ** [src/main.py] *)

Record TimeResult : Type := {
  timezone : string;
  datetime : string;
  is_dst : bool
}.

Record TimeConversionResult : Type := {
  source : TimeResult;
  target : TimeResult;
  time_difference : string
}.

(** [bool(x)] on an optional text and on a [timedelta] *)
Definition truthy (s : option string) : bool :=
  match s with
  | Some s => negb (PyStr.is_empty s)
  | None => false
  end.

Definition timedelta_bool (td : Timedelta.t) : bool := negb (td =? 0).

(** [str(x)] on an optional [tzinfo] *)
Definition str_tzinfo (x : option string) : string :=
  match x with
  | Some s => s
  | None => "None"
  end.

Definition china_standard_time : string := "中国标准时间".

Definition get_local_tz (E : env) (local_tz_override : option string)
  : result string :=
  match (if truthy local_tz_override then local_tz_override else None) with
  | Some override => Ok override
  | None =>
      let tzinfo := system_tzinfo E in
      if String.eqb (str_tzinfo tzinfo) china_standard_time
      then Ok "Asia/Shanghai"%string
      else
        match tzinfo with
        | Some _ => Ok (str_tzinfo tzinfo)
        | None =>
            Err (ValueError "Could not determine local timezone - tzinfo is {tzinfo}")
        end
  end.

Definition get_zoneinfo (E : env) (timezone_name : string) : result ZoneInfo :=
  except_Exception (new_ZoneInfo E timezone_name)
    (fun e => ValueError ("Invalid timezone: " ++ exn_str e)).

Definition get_current_time (E : env) (timezone_name : string)
  : result TimeResult :=
  timezone_name <-
    (if String.eqb timezone_name "local"
     then get_local_tz E (local_timezone E)
     else Ok timezone_name) ;;
  timezone <- get_zoneinfo E timezone_name ;;
  current_time <- now E timezone ;;
  Ok {| timezone := timezone_name;
        datetime := aware_isoformat_seconds current_time;
        is_dst := timedelta_bool (aware_dst current_time) |}.

Definition invalid_time_format : string :=
  "Invalid time format. Expected HH:MM [24-hour format]".

(** Lines 94-112 of [convert_time]: the two date-times. *)
Definition conversion (E : env) (source_tz time_str target_tz : string)
  : result (aware * aware) :=
  source_timezone <- get_zoneinfo E source_tz ;;
  target_timezone <- get_zoneinfo E target_tz ;;
  parsed_time <-
    except_ValueError (Strptime.strptime_HM time_str)
                      (ValueError invalid_time_format) ;;
  now <- now E source_timezone ;;
  let source_time :=
    {| fields := Datetime.new (Datetime.year (fields now))
                              (Datetime.month (fields now))
                              (Datetime.day (fields now))
                              (fst parsed_time) (snd parsed_time);
       zone := source_timezone |} in
  target_time <- astimezone source_time target_timezone ;;
  Ok (source_time, target_time).

(** Lines 113-134 of [convert_time]: the difference and the result. *)
Definition conversion_result (source_tz target_tz : string)
  (source_time target_time : aware) : TimeConversionResult :=
  let source_offset := Timedelta.or_zero (aware_utcoffset source_time) in
  let target_offset := Timedelta.or_zero (aware_utcoffset target_time) in
  let hours_difference := hours_difference target_offset source_offset in
  let time_diff_str := time_diff_str hours_difference in
  {| source := {| timezone := source_tz;
                  datetime := aware_isoformat_seconds source_time;
                  is_dst := timedelta_bool (aware_dst source_time) |};
     target := {| timezone := target_tz;
                  datetime := aware_isoformat_seconds target_time;
                  is_dst := timedelta_bool (aware_dst target_time) |};
     time_difference := time_diff_str |}.

Definition convert_time (E : env) (source_tz time_str target_tz : string)
  : result TimeConversionResult :=
  p <- conversion E source_tz time_str target_tz ;;
  Ok (conversion_result source_tz target_tz (fst p) (snd p)).

(** ** The error kinds of the specification

    The program raises [ValueError] throughout; the three kinds are told
    apart by the text. *)

Definition InvalidTimezoneError (e : exn) : Prop :=
  exists cause, e = ValueError ("Invalid timezone: " ++ cause).

Definition InvalidTimeFormatError (e : exn) : Prop :=
  e = ValueError invalid_time_format.

Definition LocalTimezoneUndeterminedError (e : exn) : Prop :=
  e = ValueError "Could not determine local timezone - tzinfo is {tzinfo}".

(** ** A small zone database for examples *)

Module Sample.

(** A zone of one offset and no daylight saving time. *)
Definition fixed (offset : Z) : tzinfo :=
  {| utcoffset := fun _ => offset;
     dst := fun _ => 0;
     fromutc := fun u => Datetime.add u offset |}.

(** Four zones at the offsets they have in the years of the examples;
    [Africa/Monrovia] at the -0:44:30 it kept until 1972. *)
Definition db (key : string) : result tzinfo :=
  if String.eqb key "UTC" then Ok (fixed 0)
  else if String.eqb key "Asia/Kolkata" then Ok (fixed 19800)
  else if String.eqb key "Asia/Shanghai" then Ok (fixed 28800)
  else if String.eqb key "Africa/Monrovia" then Ok (fixed (-2670))
  else Err (Raise ZoneInfoNotFoundErrorC
                  ("'No time zone found with key " ++ key ++ "'")).

Definition at_utc (y m d hh mm ss : Z) : Datetime.t :=
  Datetime.mk y m d hh mm ss 0 0.

Definition E (override : option string) (label : option string)
  (clock : Datetime.t) : env :=
  {| local_timezone := override;
     system_tzinfo := label;
     zoneinfo_db := db;
     utcnow := clock |}.

Definition E2025 : env := E None (Some "UTC"%string) (at_utc 2025 4 2 12 34 56).
Definition E1971 : env := E None (Some "UTC"%string) (at_utc 1971 6 1 12 0 0).

End Sample.

(** ** Auxiliary definitions of the proofs *)

(** A decidable property on an interval of [Z]. *)
Fixpoint all_from (f : Z -> bool) (n : nat) (z : Z) : bool :=
  match n with
  | O => true
  | S k => if f z then all_from f k (z + 1) else false
  end.

(** [m * 2^e] is [d / 3600] up to a relative error of [2^-53]. *)
Definition near_hours (m : positive) (e d : Z) : Prop :=
  e < 0
  /\ Z.abs (Z.pos m * 3600 - d * 2 ^ (- e)) * 2 ^ 53 <= d * 2 ^ (- e).

(** The same float through the primitive floats, and the test of
    [near_hours] on it. *)
Definition prim_hours (d : Z) : PrimFloat.float :=
  PrimFloat.div
    (PrimFloat.div
       (PrimFloat.of_uint63 (Uint63.mul (Uint63.of_Z d) (Uint63.of_Z 1000000)))
       (PrimFloat.of_uint63 (Uint63.of_Z 1000000)))
    (PrimFloat.of_uint63 (Uint63.of_Z 3600)).

Definition near_hours_b (m : positive) (e d : Z) : bool :=
  (e <? 0)
  && (Z.shiftl (Z.abs (3600 * Z.pos m - Z.shiftl d (- e))) 53 <=? Z.shiftl d (- e)).

Definition near_check (d : Z) : bool :=
  match FloatOps.Prim2SF (prim_hours d) with
  | S754_finite false m e => near_hours_b m e d
  | _ => false
  end.

(** What a whole number [k] of hours has to satisfy: the float of [3600 * k]
    seconds is whole and prints as [k] with one zero decimal. *)
Definition whole_hours_check (k : Z) : bool :=
  match hours_difference (3600 * k) 0 with
  | S754_finite false m e =>
      PyFloat.is_integer (S754_finite false m e)
      && (PyFloat.scaled_round 1 m e =? 10 * k)
  | _ => false
  end.

(** The float of a difference [d] of offsets, in hours. *)
Definition is_hours (h : PyFloat.float) (d : Z) : Prop :=
  (d = 0 /\ h = S754_zero false)
  \/ (d <> 0 /\ exists m e, h = S754_finite (d <? 0) m e /\ near_hours m e (Z.abs d)).

Definition sign_of (d : Z) : string := if d <? 0 then "-" else "+".

(** The two characters of ["%02d" % n] and the four of ["%04d" % n]. *)
Definition digit_char (k : Z) : ascii := ascii_of_N (Z.to_N (48 + k)).

Definition two_digits (n : Z) : string :=
  String (digit_char (n / 10)) (String (digit_char (n mod 10)) EmptyString).

Definition four_digits (n : Z) : string :=
  String (digit_char (n / 1000))
    (String (digit_char (n / 100 mod 10)) (two_digits (n mod 100))).

Definition zfill2_check (n : Z) : bool :=
  String.eqb (PyStr.zfill 2 n) (two_digits n).

Definition zfill4_check (n : Z) : bool :=
  String.eqb (PyStr.zfill 4 n) (four_digits n).

(** The text [HH:MM] of a time of day, as [isoformat] shows it. *)
Definition HHMM (w : Datetime.t) : string :=
  (PyStr.zfill 2 (Datetime.hour w) ++ ":" ++ PyStr.zfill 2 (Datetime.minute w))%string.

(** An environment whose zones are coherent and whose clock shows a
    [datetime]. *)
Definition env_wf (E : env) : Prop :=
  (forall k z, zoneinfo_db E k = Ok z -> tz_coherent z)
  /\ Datetime.valid (utcnow E).

(** The reading of the specification of the [datetime] text: a date and a
    time to the second, then a signed offset in hours and minutes (and
    seconds when it has any), and nothing else. *)
Inductive char_class : Type :=
| Digit
| Literal (c : ascii)
| Sign.

Definition is_digit (c : ascii) : bool :=
  match Strptime.digit_value c with
  | Some _ => true
  | None => false
  end.

Definition in_class (k : char_class) (c : ascii) : bool :=
  match k with
  | Digit => is_digit c
  | Literal l => Ascii.eqb c l
  | Sign => Ascii.eqb c "+" || Ascii.eqb c "-"
  end.

(** The rest of [s] after a prefix of the given classes. *)
Fixpoint shape (p : list char_class) (s : string) : option string :=
  match p with
  | [] => Some s
  | k :: p' =>
      match s with
      | String c s' => if in_class k c then shape p' s' else None
      | EmptyString => None
      end
  end.

Definition iso_date_time : list char_class :=
  [Digit; Digit; Digit; Digit; Literal "-"; Digit; Digit; Literal "-"; Digit; Digit;
   Literal "T"; Digit; Digit; Literal ":"; Digit; Digit; Literal ":"; Digit; Digit].

Definition iso_offset : list char_class :=
  [Sign; Digit; Digit; Literal ":"; Digit; Digit].

Definition iso_seconds_with_offset (s : string) : bool :=
  match shape (iso_date_time ++ iso_offset) s with
  | Some EmptyString => true
  | Some rest =>
      match shape [Literal ":"; Digit; Digit] rest with
      | Some EmptyString => true
      | _ => false
      end
  | None => false
  end.

(** The round trip of the specification.  Two date-times show the same
    wall-clock time when they agree from the year to the second. *)
Definition same_date (w w' : Datetime.t) : Prop :=
  Datetime.year w = Datetime.year w'
  /\ Datetime.month w = Datetime.month w'
  /\ Datetime.day w = Datetime.day w'.

Definition same_time_of_day (w w' : Datetime.t) : Prop :=
  Datetime.hour w = Datetime.hour w'
  /\ Datetime.minute w = Datetime.minute w'
  /\ Datetime.second w = Datetime.second w'.

Definition same_wall_clock (w w' : Datetime.t) : Prop :=
  same_date w w' /\ same_time_of_day w w'.

(** A conversion from [A] to [B] and one back from [B] to [A] of the
    [HH:MM] shown for the first target, each zone being found in the second
    at the offset it had in the first. *)
Definition roundtrip_premises (E1 E2 : env) (A time_str B : string)
  (source1 target1 source2 target2 : aware) : Prop :=
  conversion E1 A time_str B = Ok (source1, target1)
  /\ conversion E2 B (HHMM (fields target1)) A = Ok (source2, target2)
  /\ aware_utcoffset source2 = aware_utcoffset target1
  /\ aware_utcoffset target2 = aware_utcoffset source1.

(** The claim at its weakest: even when the second conversion is made on
    the date of the first target, the time of day comes back. *)
Definition roundtrip_holds (E1 E2 : env) (A time_str B : string) : Prop :=
  forall source1 target1 source2 target2,
    roundtrip_premises E1 E2 A time_str B source1 target1 source2 target2 ->
    same_date (fields source2) (fields target1) ->
    same_time_of_day (fields target2) (fields source1).

(** ** Auxiliary definitions of the further properties *)

(** The end of the difference string for a number of quarters of an hour. *)
Definition quarter_suffix (q : Z) : string :=
  match q with
  | 0 => ".0h"
  | 1 => ".25h"
  | 2 => ".5h"
  | _ => ".75h"
  end.

(** The difference string without its sign. *)
Definition unsigned_diff (m : positive) (e : Z) : string :=
  if PyFloat.is_integer (S754_finite false m e)
  then (PyFloat.fixed 1 (PyFloat.scaled_round 1 m e) ++ "h")%string
  else (PyStr.rstrip "." (PyStr.rstrip "0" (PyFloat.fixed 2 (PyFloat.scaled_round 2 m e)))
        ++ "h")%string.
(** * Proofs *)

(** ** Checking a decidable property on an interval of [Z] *)

Lemma all_from_spec (f : Z -> bool) (n : nat) :
  forall z, all_from f n z = true ->
  forall x, z <= x < z + Z.of_nat n -> f x = true.
Proof.
  induction n as [|k IH]; intros z H x Hx.
  - simpl in Hx. lia.
  - simpl in H. destruct (f z) eqn:Hz; [|discriminate].
    destruct (Z.eq_dec x z) as [->|Hne]; [exact Hz|].
    apply (IH (z + 1) H). lia.
Qed.

(** ** Facts on the difference string *)

Section DifferenceString.

Import PyFloat.

Lemma binary_round_aux_opp (sx : bool) (mx ex : Z) (lx : location) :
  binary_round_aux prec emax (negb sx) mx ex lx
  = SFopp (binary_round_aux prec emax sx mx ex lx).
Proof.
  unfold binary_round_aux.
  destruct (shr_fexp prec emax mx ex lx) as [mrs' e'].
  destruct (shr_fexp prec emax _ e' loc_Exact) as [mrs'' e''].
  destruct (shr_m mrs''); [reflexivity| |reflexivity].
  destruct (e'' <=? emax - prec); reflexivity.
Qed.

Lemma of_int_opp (n : Z) : n <> 0 -> of_int (- n) = SFopp (of_int n).
Proof.
  destruct n as [|p|p]; intros H; [congruence| |];
    unfold of_int, binary_normalize, binary_round; simpl Z.opp; cbv iota beta;
    destruct (shl_align _ _ _) as [mz ez].
  - apply (binary_round_aux_opp false).
  - rewrite (binary_round_aux_opp false). destruct (binary_round_aux _ _ _ _ _ _);
      simpl; rewrite ?Bool.negb_involutive; reflexivity.
Qed.

Lemma div_opp_finite (x : float) (my : positive) (ey : Z) :
  div (SFopp x) (S754_finite false my ey)
  = SFopp (div x (S754_finite false my ey)).
Proof.
  destruct x as [s|s| |s m e]; simpl; try reflexivity.
  - now destruct s.
  - now destruct s.
  - destruct (SFdiv_core_binary prec emax (Z.pos m) e (Z.pos my) ey) as [[mz ez] lz].
    rewrite !Bool.xorb_false_r. apply binary_round_aux_opp.
Qed.

Lemma hours_difference_shift (t s : Z) :
  hours_difference t s = hours_difference (t - s) 0.
Proof. unfold hours_difference. now rewrite Z.sub_0_r. Qed.

Lemma hours_difference_opp (d : Z) :
  d <> 0 -> hours_difference (- d) 0 = SFopp (hours_difference d 0).
Proof.
  intros H. unfold hours_difference, Timedelta.total_seconds, int_truediv.
  rewrite !Z.sub_0_r.
  replace (- d * 1000000) with (- (d * 1000000)) by lia.
  rewrite of_int_opp by lia.
  change (of_int 1000000) with (S754_finite false 8589934592000000 (-33)).
  change (of_int 3600) with (S754_finite false 7916483719987200 (-41)).
  now rewrite !div_opp_finite.
Qed.

Lemma to_Z_of_Z (n : Z) :
  0 <= n < 2 ^ 62 -> Uint63.to_Z (Uint63.of_Z n) = n.
Proof.
  intros H. rewrite Uint63.of_Z_spec. apply Z.mod_small.
  change Uint63.wB with (2 ^ 63). lia.
Qed.

(** The float of the model is the primitive float. *)
Lemma hours_difference_prim (d : Z) :
  0 <= d < 2 ^ 30 -> hours_difference d 0 = FloatOps.Prim2SF (prim_hours d).
Proof.
  intros H. unfold prim_hours.
  rewrite !FloatAxioms.div_spec, !FloatAxioms.of_uint63_spec.
  rewrite Uint63Axioms.mul_spec, !to_Z_of_Z by lia.
  rewrite Z.mod_small by (change Uint63Axioms.wB with (2 ^ 63); lia).
  unfold hours_difference, Timedelta.total_seconds, int_truediv, div, of_int.
  now rewrite Z.sub_0_r.
Qed.

Lemma near_check_all : all_from near_check (Z.to_nat 172799) 1 = true.
Proof. vm_cast_no_check (eq_refl true). Qed.

Lemma whole_hours_check_all : all_from whole_hours_check 47 1 = true.
Proof. vm_compute. reflexivity. Qed.

Lemma near_hours_b_spec (m : positive) (e d : Z) :
  near_hours_b m e d = true -> near_hours m e d.
Proof.
  unfold near_hours_b, near_hours. intros H.
  apply andb_prop in H as [H1 H2]. apply Z.ltb_lt in H1. apply Z.leb_le in H2.
  rewrite !Z.shiftl_mul_pow2 in H2 by lia.
  split; [exact H1|]. now replace (Z.pos m * 3600) with (3600 * Z.pos m) by lia.
Qed.

Lemma hours_difference_near (d : Z) :
  0 < d < 172800 ->
  exists m e, hours_difference d 0 = S754_finite false m e /\ near_hours m e d.
Proof.
  intros H.
  assert (Hc : near_check d = true)
    by (apply (all_from_spec _ _ _ near_check_all); lia).
  unfold near_check in Hc. rewrite hours_difference_prim by lia.
  destruct (FloatOps.Prim2SF (prim_hours d)) as [?|?| |s m e]; try discriminate.
  destruct s; [discriminate|].
  exists m, e. split; [reflexivity|now apply near_hours_b_spec].
Qed.

(** The digits of [%.pf] are a nearest integer to the scaled value. *)
Lemma scaled_round_nearest (p : nat) (m : positive) (e : Z) :
  e < 0 ->
  2 * Z.abs (scaled_round p m e * 2 ^ (- e) - Z.pos m * 10 ^ Z.of_nat p)
  <= 2 ^ (- e).
Proof.
  intros He. unfold scaled_round.
  destruct (Z.leb_spec 0 e) as [|_]; [lia|].
  set (num := Z.pos m * 10 ^ Z.of_nat p).
  rewrite Z.shiftr_div_pow2, Z.land_ones, Z.shiftl_1_l by lia.
  set (P := 2 ^ (- e)).
  assert (HP : 0 < P) by (apply Z.pow_pos_nonneg; lia).
  pose proof (Z.div_mod num P ltac:(lia)) as Hd.
  pose proof (Z.mod_pos_bound num P HP) as Hr.
  set (q := num / P) in *. set (r := num mod P) in *.
  clearbody q r P num.
  destruct (Z.compare_spec (2 * r) P) as [Heq|Hlt|Hgt];
    [destruct (Z.even q)| |]; nia.
Qed.

Lemma is_integer_finite (s : bool) (m : positive) (e : Z) :
  e < 0 ->
  is_integer (S754_finite s m e) = (Z.pos m mod 2 ^ (- e) =? 0).
Proof.
  intros He. unfold is_integer.
  destruct (Z.leb_spec 0 e) as [|_]; [lia|].
  now rewrite Z.land_ones by lia.
Qed.

(** What is printed for a difference that is not a whole number of
    hours. *)
Lemma near_hours_not_whole (m : positive) (e d : Z) (s : bool) :
  0 < d < 172800 -> d mod 3600 <> 0 -> near_hours m e d ->
  is_integer (S754_finite s m e) = false
  /\ Z.abs (36 * scaled_round 2 m e - d) <= 18.
Proof.
  intros Hd Hm [He Hn].
  pose proof (scaled_round_nearest 2 m e He) as Hr.
  change (10 ^ Z.of_nat 2) with 100 in Hr.
  rewrite (is_integer_finite s m e He).
  set (P := 2 ^ (- e)) in *.
  assert (HP : 0 < P) by (apply Z.pow_pos_nonneg; lia).
  set (N := scaled_round 2 m e) in *.
  change (2 ^ 53) with 9007199254740992 in Hn.
  set (M := Z.pos m) in *.
  assert (HB : Z.abs (3600 * M - d * P) < P) by nia.
  clearbody P N M. clear Hn.
  split.
  - apply Z.eqb_neq. intros Hz.
    apply Z.mod_divide in Hz; [|lia]. destruct Hz as [j Hj]. subst M.
    assert (Hj : Z.abs (3600 * j - d) * P < 1 * P) by nia.
    apply Z.mul_lt_mono_pos_r in Hj; [|exact HP].
    assert (d = 3600 * j) by lia. subst d.
    apply Hm. now rewrite Z.mul_comm, Z.mod_mul by lia.
  - assert (Hk : Z.abs (36 * N - d) * P < 19 * P) by nia.
    apply Z.mul_lt_mono_pos_r in Hk; [|exact HP]. lia.
Qed.

Lemma whole_hours (d : Z) (sg : bool) :
  0 < d < 172800 -> d mod 3600 = 0 ->
  exists m e,
    hours_difference d 0 = S754_finite false m e
    /\ is_integer (S754_finite sg m e) = true
    /\ scaled_round 1 m e = 10 * (d / 3600).
Proof.
  intros Hd Hm.
  assert (Hk : d = 3600 * (d / 3600)) by lia.
  assert (Hc : whole_hours_check (d / 3600) = true)
    by (apply (all_from_spec _ _ _ whole_hours_check_all); simpl; lia).
  unfold whole_hours_check in Hc. rewrite <- Hk in Hc.
  destruct (hours_difference d 0) as [?|?| |s m e]; try discriminate.
  destruct s; [discriminate|].
  apply andb_prop in Hc as [Hi Hs]. apply Z.eqb_eq in Hs.
  exists m, e. split; [reflexivity|]. split; [exact Hi|exact Hs].
Qed.

End DifferenceString.

Section DifferenceStringFacts.

Import PyFloat.

Lemma append_assoc (a b c : string) : ((a ++ b) ++ c = a ++ (b ++ c))%string.
Proof. induction a as [|x a IH]; simpl; [reflexivity|now rewrite IH]. Qed.

(** The float computed for a non-zero difference: its sign is the sign of
    the difference, it is whole exactly for whole hours, and the digits
    printed for it are those of the hours (one decimal) or of a nearest
    hundredth of the hours (two decimals). *)
Lemma hours_difference_shape (d : Z) :
  d <> 0 -> -172800 < d < 172800 ->
  exists m e,
    hours_difference d 0 = S754_finite (d <? 0) m e
    /\ near_hours m e (Z.abs d)
    /\ is_integer (S754_finite (d <? 0) m e) = (d mod 3600 =? 0)
    /\ (d mod 3600 = 0 -> scaled_round 1 m e = 10 * (Z.abs d / 3600))
    /\ (d mod 3600 <> 0 -> Z.abs (36 * scaled_round 2 m e - Z.abs d) <= 18).
Proof.
  intros Hnz Hr.
  assert (Hpos : forall p, 0 < p < 172800 -> forall sg,
    exists m e,
      hours_difference p 0 = S754_finite false m e
      /\ near_hours m e p
      /\ is_integer (S754_finite sg m e) = (p mod 3600 =? 0)
      /\ (p mod 3600 = 0 -> scaled_round 1 m e = 10 * (p / 3600))
      /\ (p mod 3600 <> 0 -> Z.abs (36 * scaled_round 2 m e - p) <= 18)).
  { intros p Hp sg.
    destruct (hours_difference_near p Hp) as (m & e & Hh & Hn).
    exists m, e. split; [exact Hh|]. split; [exact Hn|].
    destruct (Z.eqb_spec (p mod 3600) 0) as [Hm|Hm].
    - destruct (whole_hours p sg Hp Hm) as (m' & e' & Hh' & Hi & Hs).
      rewrite Hh in Hh'. injection Hh' as <- <-.
      split; [exact Hi|]. split; [intros _; exact Hs|intros; lia].
    - destruct (near_hours_not_whole m e p sg Hp Hm Hn) as [Hi Hs].
      split; [exact Hi|]. split; [intros; lia|intros _; exact Hs]. }
  destruct (Z.ltb_spec d 0) as [Hneg|Hge].
  - destruct (Hpos (- d) ltac:(lia) true) as (m & e & Hh & Hn & Hi & H1 & H2).
    exists m, e.
    replace d with (- - d) at 1 by lia.
    rewrite hours_difference_opp by lia. rewrite Hh. simpl SFopp.
    replace (Z.abs d) with (- d) by lia.
    assert (Hmod : (- d) mod 3600 = 0 <-> d mod 3600 = 0) by lia.
    split; [reflexivity|]. split; [exact Hn|]. split.
    + rewrite Hi. destruct (Z.eqb_spec ((- d) mod 3600) 0), (Z.eqb_spec (d mod 3600) 0);
        try reflexivity; lia.
    + split; intros; [apply H1|apply H2]; lia.
  - destruct (Hpos d ltac:(lia) false) as (m & e & Hh & Hn & Hi & H1 & H2).
    exists m, e. replace (Z.abs d) with d by lia. tauto.
Qed.

Lemma hours_difference_is_hours (t s : Z) :
  -86400 < t < 86400 -> -86400 < s < 86400 ->
  is_hours (hours_difference t s) (t - s).
Proof.
  intros Ht Hs. rewrite hours_difference_shift.
  destruct (Z.eq_dec (t - s) 0) as [Hz|Hnz].
  - left. rewrite Hz. split; reflexivity.
  - right. split; [exact Hnz|].
    destruct (hours_difference_shape (t - s) Hnz ltac:(lia)) as (m & e & Hh & Hn & _).
    now exists m, e.
Qed.

Lemma sign_char_sign_of (d : Z) : sign_char (d <? 0) = sign_of d.
Proof. reflexivity. Qed.

Lemma fixed_1_tenfold (k : Z) : fixed 1 (10 * k) = (PyStr.decimal k ++ ".0")%string.
Proof.
  unfold fixed. change (10 ^ Z.of_nat 1) with 10.
  replace (10 * k / 10) with k by lia.
  replace ((10 * k) mod 10) with 0 by lia.
  reflexivity.
Qed.



End DifferenceStringFacts.



Example difference_plus_8 : time_diff_str (hours_difference 28800 0) = "+8.0h"%string.
Proof. vm_compute. reflexivity. Qed.
Example difference_minus_5 : time_diff_str (hours_difference (-18000) 0) = "-5.0h"%string.
Proof. vm_compute. reflexivity. Qed.
Example difference_5_75 : time_diff_str (hours_difference 20700 0) = "+5.75h"%string.
Proof. vm_compute. reflexivity. Qed.
Example difference_5_5 : time_diff_str (hours_difference 19800 0) = "+5.5h"%string.
Proof. vm_compute. reflexivity. Qed.
Example difference_zero : time_diff_str (hours_difference 3600 3600) = "+0.0h"%string.
Proof. vm_compute. reflexivity. Qed.

(** The negative zero would print its sign; no difference of offsets
    computes it (see the fifth part of the theorem above). *)
Example difference_negative_zero : time_diff_str (S754_zero true) = "-0.0h"%string.
Proof. reflexivity. Qed.

(** ** The calendar *)

Section CalendarFacts.

Import Calendar.


Lemma is_leap_true (y : Z) :
is_leap y = true <-> (y mod 4 = 0 /\ (y mod 100 <> 0 \/ y mod 400 = 0)).
Proof.
unfold is_leap. rewrite Bool.andb_true_iff, Bool.orb_true_iff, Bool.negb_true_iff.
rewrite !Z.eqb_eq, Z.eqb_neq. tauto.
Qed.

Lemma is_leap_cases (y : Z) :
(is_leap y = true /\ y mod 4 = 0 /\ (y mod 100 <> 0 \/ y mod 400 = 0))
\/ (is_leap y = false /\ (y mod 4 <> 0 \/ (y mod 100 = 0 /\ y mod 400 <> 0))).
Proof.
destruct (is_leap y) eqn:H.
- left. apply is_leap_true in H. tauto.
- right. split; [reflexivity|].
  destruct (Z.eq_dec (y mod 4) 0), (Z.eq_dec (y mod 100) 0), (Z.eq_dec (y mod 400) 0);
    try tauto; exfalso;
    (assert (is_leap y = true) by (apply is_leap_true; tauto)); congruence.
Qed.

Lemma ord2ymd_ymd2ord (n : Z) :
let '(y, m, d) := ord2ymd n in valid_date y m d /\ ymd2ord y m d = n.
Proof.
unfold ord2ymd, DI400Y, DI100Y, DI4Y. cbv zeta.
set (n0 := n - 1).
set (n400 := n0 / 146097). set (r1 := n0 mod 146097).
set (n100 := r1 / 36524). set (r2 := r1 mod 36524).
set (n4 := r2 / 1461). set (r3 := r2 mod 1461).
set (n1 := r3 / 365). set (r4 := r3 mod 365).
assert (Hb : 0 <= r1 < 146097 /\ 0 <= r2 < 36524 /\ 0 <= r3 < 1461 /\ 0 <= r4 < 365
             /\ 0 <= n100 <= 4 /\ 0 <= n4 <= 24 /\ 0 <= n1 <= 4
             /\ n0 = 146097 * n400 + r1 /\ r1 = 36524 * n100 + r2
             /\ r2 = 1461 * n4 + r3 /\ r3 = 365 * n1 + r4) by (subst n400 r1 n100 r2 n4 r3 n1 r4; lia).
clearbody n400 r1 n100 r2 n4 r3 n1 r4.
destruct Hb as (? & ? & ? & ? & ? & ? & ? & ? & ? & ? & ?).
set (year := n400 * 400 + 1 + n100 * 100 + n4 * 4 + n1).
destruct ((n1 =? 4) || (n100 =? 4)) eqn:Hend.
- apply Bool.orb_true_iff in Hend. rewrite !Z.eqb_eq in Hend.
  unfold valid_date, ymd2ord, days_in_month, days_before_month, days_before_year.
  simpl (12 =? 2). simpl (2 <? 12). cbv iota. simpl andb. cbv iota.
  simpl DAYS_IN_MONTH. simpl DAYS_BEFORE_MONTH.
  destruct (is_leap_cases (year - 1)) as [(-> & Hl)|(-> & Hl)]; subst year n0; lia.
- apply Bool.orb_false_iff in Hend. rewrite !Z.eqb_neq in Hend.
  rewrite Z.shiftr_div_pow2 by lia. change (2 ^ 5) with 32.
  set (month := (r4 + 50) / 32).
  assert (Hm : month = 1 \/ month = 2 \/ month = 3 \/ month = 4 \/ month = 5 \/ month = 6
               \/ month = 7 \/ month = 8 \/ month = 9 \/ month = 10 \/ month = 11 \/ month = 12)
    by (subst month; lia).
  assert (Hr : 32 * month <= r4 + 50 < 32 * month + 32) by (subst month; lia).
  clearbody month.
  set (leapyear := (n1 =? 3) && (negb (n4 =? 24) || (n100 =? 3))).
  assert (Hly : leapyear = is_leap year).
  { subst leapyear. destruct (is_leap_cases year) as [(-> & Hl)|(-> & Hl)].
    - apply Bool.andb_true_iff. rewrite Bool.orb_true_iff, Bool.negb_true_iff, !Z.eqb_eq, Z.eqb_neq.
      subst year. lia.
    - apply Bool.andb_false_iff. rewrite Bool.orb_false_iff, Bool.negb_false_iff, !Z.eqb_eq, !Z.eqb_neq.
      subst year. lia. }
  rewrite Hly. clear Hly leapyear.
  destruct (is_leap_cases year) as [(Hleap & Hl)|(Hleap & Hl)]; rewrite Hleap;
  decompose [or] Hm; subst month;
  simpl (DAYS_BEFORE_MONTH _); simpl (2 <? _); simpl andb; cbv iota;
  match goal with |- context [r4 <? ?c] => destruct (Z.ltb_spec r4 c) as [Hc|Hc] end;
  cbv beta iota;
  unfold valid_date, ymd2ord, days_in_month, days_before_month, days_before_year;
  rewrite ?Hleap;
  simpl (DAYS_BEFORE_MONTH _); simpl (DAYS_IN_MONTH _); simpl (2 <? _); simpl (_ =? 2);
  simpl andb; cbv iota;
  subst year n0; lia.
Qed.


Lemma days_before_year_succ (y : Z) :
  days_before_year (y + 1) = days_before_year y + 365 + (if is_leap y then 1 else 0).
Proof.
  unfold days_before_year.
  destruct (is_leap_cases y) as [(-> & Hl)|(-> & Hl)]; lia.
Qed.

Lemma days_before_year_mono (y y' : Z) :
  y <= y' -> days_before_year y <= days_before_year y'.
Proof. unfold days_before_year. lia. Qed.

Lemma ymd2ord_in_year (y m d : Z) :
  valid_date y m d ->
  days_before_year y < ymd2ord y m d <= days_before_year (y + 1).
Proof.
  intros [Hm Hd]. rewrite days_before_year_succ.
  unfold ymd2ord, days_before_month, days_in_month in *.
  assert (Hc : m = 1 \/ m = 2 \/ m = 3 \/ m = 4 \/ m = 5 \/ m = 6 \/ m = 7 \/ m = 8
               \/ m = 9 \/ m = 10 \/ m = 11 \/ m = 12) by lia.
  destruct (is_leap y); decompose [or] Hc; subst m;
    simpl (DAYS_BEFORE_MONTH _); simpl (DAYS_IN_MONTH _) in Hd;
    simpl (_ =? 2) in Hd; simpl (2 <? _); simpl andb in *; cbv iota in *; lia.
Qed.

Lemma ymd2ord_inj (y m d y' m' d' : Z) :
  valid_date y m d -> valid_date y' m' d' ->
  ymd2ord y m d = ymd2ord y' m' d' -> y = y' /\ m = m' /\ d = d'.
Proof.
  intros V V' E.
  pose proof (ymd2ord_in_year _ _ _ V) as B.
  pose proof (ymd2ord_in_year _ _ _ V') as B'.
  assert (Hy : y = y').
  { destruct (Z.lt_trichotomy y y') as [Hlt|[Heq|Hgt]]; [|exact Heq|].
    - pose proof (days_before_year_mono (y + 1) y' ltac:(lia)). lia.
    - pose proof (days_before_year_mono (y' + 1) y ltac:(lia)). lia. }
  subst y'. split; [reflexivity|].
  destruct V as [Hm Hd], V' as [Hm' Hd'].
  unfold ymd2ord, days_before_month, days_in_month in *.
  assert (Hc : m = 1 \/ m = 2 \/ m = 3 \/ m = 4 \/ m = 5 \/ m = 6 \/ m = 7 \/ m = 8
               \/ m = 9 \/ m = 10 \/ m = 11 \/ m = 12) by lia.
  assert (Hc' : m' = 1 \/ m' = 2 \/ m' = 3 \/ m' = 4 \/ m' = 5 \/ m' = 6 \/ m' = 7
               \/ m' = 8 \/ m' = 9 \/ m' = 10 \/ m' = 11 \/ m' = 12) by lia.
  clear B B'.
  destruct (is_leap y); decompose [or] Hc; subst m; decompose [or] Hc'; subst m';
    simpl (DAYS_BEFORE_MONTH _) in E; simpl (DAYS_IN_MONTH _) in Hd, Hd';
    simpl (_ =? 2) in Hd, Hd'; simpl (2 <? _) in E; simpl andb in *; cbv iota in *; lia.
Qed.

Lemma ord2ymd_year_range (n : Z) :
  0 < n <= MAXORDINAL ->
  let '(y, m, d) := ord2ymd n in MINYEAR <= y <= MAXYEAR.
Proof.
  intros Hn. pose proof (ord2ymd_ymd2ord n) as H.
  destruct (ord2ymd n) as [[y m] d]. destruct H as [V E].
  pose proof (ymd2ord_in_year _ _ _ V) as B. rewrite E in B.
  unfold MINYEAR, MAXYEAR, MAXORDINAL in *.
  split.
  - destruct (Z_le_gt_dec 1 y) as [|Hlt]; [assumption|].
    pose proof (days_before_year_mono (y + 1) 1 ltac:(lia)) as M.
    change (days_before_year 1) with 0 in M. lia.
  - destruct (Z_le_gt_dec y 9999) as [|Hgt]; [assumption|].
    pose proof (days_before_year_mono 10000 y ltac:(lia)) as M.
    change (days_before_year 10000) with 3652059 in M. lia.
Qed.

End CalendarFacts.

(** ** [strptime] against the reading of the specification *)

Section StrptimeFacts.

Import Strptime.

Lemma digit_value_range (a : ascii) (v : Z) :
  digit_value a = Some v -> 0 <= v <= 9.
Proof.
  unfold digit_value. intros H.
  destruct ((48 <=? Z.of_N (N_of_ascii a)) && (Z.of_N (N_of_ascii a) <=? 57)) eqn:Hc;
    [|discriminate].
  injection H as <-. apply andb_prop in Hc as [H1 H2].
  apply Z.leb_le in H1, H2. lia.
Qed.

Lemma eqb_two_digit (a : ascii) :
  Ascii.eqb a "2"
  = match digit_value a with Some v => v =? 2 | None => false end.
Proof. destruct a as [[] [] [] [] [] [] [] []]; reflexivity. Qed.

Lemma colon_no_digit (a : ascii) :
  Ascii.eqb a ":" = true -> digit_value a = None.
Proof. destruct a as [[] [] [] [] [] [] [] []]; intros H; try discriminate H; reflexivity. Qed.

Lemma eqb_colon_eq (a : ascii) : Ascii.eqb a ":" = true -> a = ":"%char.
Proof. apply Ascii.eqb_eq. Qed.


Ltac red_in H :=
  cbn [matches re_H re_M flat_map map app hd_error one String.append PyStr.is_empty] in H.

Ltac split_in H :=
  match type of H with
  | context [Ascii.eqb ?a "2"] => rewrite (eqb_two_digit a) in H
  | context [match digit_value ?a with _ => _ end] => destruct (digit_value a) eqn:?
  | context [one ?c _ _] =>
      lazymatch c with true => fail | false => fail | _ => destruct c eqn:? end
  end; red_in H.

Ltac digit_facts :=
  repeat match goal with
  | H : Some _ = Some _ |- _ => injection H as H; try subst
  | H : Some _ = None |- _ => discriminate H
  | H : None = Some _ |- _ => discriminate H
  | H : Ascii.eqb ?a ":" = true, H' : digit_value ?a = Some _ |- _ =>
      rewrite (colon_no_digit a H) in H'; discriminate H'
  | H : Ascii.eqb ?a ":" = true |- _ => apply Ascii.eqb_eq in H; subst a
  | H : digit_value ?a = Some ?v |- _ =>
      lazymatch goal with
      | _ : 0 <= v <= 9 |- _ => fail
      | _ => pose proof (digit_value_range a v H)
      end
  | H : (_ && _) = true |- _ => apply andb_prop in H as [? ?]
  | H : Z.leb _ _ = true |- _ => apply Z.leb_le in H
  | H : Z.eqb _ _ = true |- _ => apply Z.eqb_eq in H
  | H : Z.leb _ _ = false |- _ => apply Z.leb_gt in H
  | H : Z.eqb _ _ = false |- _ => apply Z.eqb_neq in H
  end.

Ltac field_tac :=
  unfold field, int; cbn [String.length all_digits int_from];
  repeat match goal with
  | H : digit_value ?a = Some _ |- _ => rewrite !H
  end;
  repeat split; try reflexivity; auto; try lia.

Lemma strptime_HM_sound (s : string) (h m : Z) :
  strptime_HM s = Ok (h, m) -> spec_HHMM s h m.
Proof.
  unfold strptime_HM, regex_match. intros H.
  destruct s as [|a1 [|a2 [|a3 [|a4 [|a5 [|a6 s]]]]]]; red_in H;
  repeat split_in H; try discriminate H;
  digit_facts;
  match type of H with
  | Ok (int ?hs, int ?ms) = Ok _ =>
      injection H as <- <-; exists hs, ms
  end;
  (split; [reflexivity|split; field_tac]).
Qed.

Ltac red_goal :=
  cbn [matches re_H re_M flat_map map app hd_error one String.append PyStr.is_empty].

Ltac split_goal :=
  match goal with
  | |- context [Ascii.eqb ":" ":"] => change (Ascii.eqb ":" ":") with true
  | |- context [digit_value ":"] => change (digit_value ":") with (@None Z)
  | |- context [Ascii.eqb ?a "2"] => rewrite (eqb_two_digit a)
  | H : digit_value ?a = Some _ |- context [digit_value ?a] => rewrite !H
  | |- context [one ?c _ _] =>
      lazymatch c with true => fail | false => fail | _ => destruct c eqn:? end
  end; red_goal.

Lemma all_digits_cons (a : ascii) (s : string) :
  all_digits (String a s) = true ->
  exists v, digit_value a = Some v /\ all_digits s = true.
Proof.
  cbn [all_digits]. destruct (digit_value a) as [v|]; [|discriminate].
  intros H. exists v. auto.
Qed.

Lemma strptime_HM_complete (s : string) (h m : Z) :
  spec_HHMM s h m -> strptime_HM s = Ok (h, m).
Proof.
  intros (hs & ms & -> & (Lh & Dh & <- & Bh) & (Lm & Dm & <- & Bm)).
  destruct hs as [|h1 [|h2 [|h3 hs]]]; cbn [String.length] in Lh; try lia;
  destruct ms as [|m1 [|m2 [|m3 ms]]]; cbn [String.length] in Lm; try lia;
  repeat match goal with
  | H : all_digits (String _ _) = true |- _ =>
      apply all_digits_cons in H as (? & ? & H)
  end;
  unfold int in Bh, Bm; cbn [int_from] in Bh, Bm;
  repeat match goal with
  | H : digit_value ?a = Some _, B : context [match digit_value ?a with _ => _ end] |- _ =>
      rewrite H in B
  end;
  unfold strptime_HM, regex_match; red_goal;
  repeat split_goal; digit_facts; try reflexivity; try lia.
Qed.

Lemma strptime_HM_spec (s : string) (h m : Z) :
  strptime_HM s = Ok (h, m) <-> spec_HHMM s h m.
Proof. split; [apply strptime_HM_sound|apply strptime_HM_complete]. Qed.


End StrptimeFacts.

(** ** [datetime] arithmetic and zero-filled fields *)

Section DatetimeFacts.
Import Calendar Datetime.

Lemma zfill2_all : all_from zfill2_check 100 0 = true.
Proof. vm_compute. reflexivity. Qed.

Lemma zfill4_all : all_from zfill4_check (Z.to_nat 10000) 0 = true.
Proof. vm_compute. reflexivity. Qed.

Lemma zfill2_two_digits (n : Z) : 0 <= n < 100 -> PyStr.zfill 2 n = two_digits n.
Proof.
  intros H. apply String.eqb_eq.
  apply (all_from_spec _ _ _ zfill2_all). simpl. lia.
Qed.

Lemma zfill4_four_digits (n : Z) : 0 <= n < 10000 -> PyStr.zfill 4 n = four_digits n.
Proof.
  intros H. apply String.eqb_eq.
  apply (all_from_spec _ _ _ zfill4_all). lia.
Qed.

Lemma add_ok (w w' : t) (td : Z) :
  add w td = Ok w' ->
  (MINYEAR <= year w' <= MAXYEAR
   /\ valid_date (year w') (month w') (day w')
   /\ 0 <= hour w' < 24 /\ 0 <= minute w' < 60 /\ 0 <= second w' < 60)
  /\ microsecond w' = microsecond w /\ fold w' = 0
  /\ seconds w' = seconds w + td.
Proof.
  unfold add. cbv zeta.
  set (total := hour w * 3600 + minute w * 60 + second w + td).
  set (days := toordinal w + total / 86400).
  destruct ((0 <? days) && (days <=? MAXORDINAL)) eqn:Hr; [|discriminate].
  apply andb_prop in Hr as [H1 H2]. apply Z.ltb_lt in H1. apply Z.leb_le in H2.
  pose proof (ord2ymd_ymd2ord days) as R.
  pose proof (ord2ymd_year_range days ltac:(lia)) as Y.
  destruct (ord2ymd days) as [[y m] d]. destruct R as [V E].
  intros [= <-]. unfold seconds, toordinal. cbn [year month day hour minute second microsecond fold].
  rewrite E. subst days total. unfold toordinal.
  repeat split; try assumption; try apply V; try apply Y; lia.
Qed.

Lemma add_valid (w w' : t) (td : Z) :
  valid w -> add w td = Ok w' -> valid w'.
Proof.
  intros V H. apply add_ok in H as (H & Hm & _). unfold valid in *.
  rewrite Hm. tauto.
Qed.

Lemma seconds_inj (w w' : t) :
  valid w -> valid w' -> seconds w = seconds w' ->
  year w = year w' /\ month w = month w' /\ day w = day w'
  /\ hour w = hour w' /\ minute w = minute w' /\ second w = second w'.
Proof.
  unfold valid, seconds, toordinal.
  intros (_ & V & ? & ? & ? & _) (_ & V' & ? & ? & ? & _) E.
  assert (Ho : ymd2ord (year w) (month w) (day w) = ymd2ord (year w') (month w') (day w')) by lia.
  destruct (ymd2ord_inj _ _ _ _ _ _ V V' Ho) as (? & ? & ?).
  repeat split; try assumption; lia.
Qed.
End DatetimeFacts.

(** ** The two tools *)

Section ResolverFacts.

Variable E : env.

Lemma get_zoneinfo_ok (k : string) (r : tzinfo) :
  zoneinfo_db E k = Ok r ->
  get_zoneinfo E k = Ok {| key := k; rules := r |}.
Proof. intros H. unfold get_zoneinfo, new_ZoneInfo. now rewrite H. Qed.

Lemma get_zoneinfo_err (k : string) (e : exn) :
  zoneinfo_db E k = Err e ->
  get_zoneinfo E k = Err (ValueError ("Invalid timezone: " ++ exn_str e)).
Proof. intros H. unfold get_zoneinfo, new_ZoneInfo. now rewrite H. Qed.

Lemma get_zoneinfo_inv (k : string) (z : ZoneInfo) :
  get_zoneinfo E k = Ok z ->
  exists r, zoneinfo_db E k = Ok r /\ z = {| key := k; rules := r |}.
Proof.
  unfold get_zoneinfo, new_ZoneInfo.
  destruct (zoneinfo_db E k) as [r|e]; simpl; [|discriminate].
  intros [= <-]. now exists r.
Qed.

Lemma get_zoneinfo_err_inv (k : string) (e' : exn) :
  get_zoneinfo E k = Err e' ->
  exists e, zoneinfo_db E k = Err e
            /\ e' = ValueError ("Invalid timezone: " ++ exn_str e).
Proof.
  unfold get_zoneinfo, new_ZoneInfo.
  destruct (zoneinfo_db E k) as [r|e]; simpl; [discriminate|].
  intros [= <-]. now exists e.
Qed.

End ResolverFacts.

Lemma invalid_timezone_is_not_time_format (cause : string) :
  ValueError ("Invalid timezone: " ++ cause) <> ValueError invalid_time_format.
Proof. unfold ValueError, invalid_time_format. simpl. intros H. discriminate H. Qed.

(** C8. An identifier that the zone database does not recognise makes the
    resolution fail with the invalid-timezone error, whose text carries the
    text of the failed lookup whatever the class of that failure; so does
    [get_current_time] on such an identifier other than the alias, as on
    ["bogus/zone"]. *)
Theorem unknown_zone_is_invalid_timezone (E : env) (name : string) (e : exn) :
  zoneinfo_db E name = Err e ->
  get_zoneinfo E name = Err (ValueError ("Invalid timezone: " ++ exn_str e))
  /\ InvalidTimezoneError (ValueError ("Invalid timezone: " ++ exn_str e))
  /\ (name <> "local"%string ->
      get_current_time E name
      = Err (ValueError ("Invalid timezone: " ++ exn_str e)))
  /\ (name = "bogus/zone"%string ->
      exists e', get_current_time E "bogus/zone" = Err e' /\ InvalidTimezoneError e').
Proof.
  intros H. pose proof (get_zoneinfo_err E name e H) as Hz.
  assert (Hc : name <> "local"%string ->
               get_current_time E name
               = Err (ValueError ("Invalid timezone: " ++ exn_str e))).
  { intros Hn. unfold get_current_time.
    destruct (String.eqb_spec name "local") as [|_]; [contradiction|].
    cbn [bind]. now rewrite Hz. }
  repeat split; try assumption.
  - now exists (exn_str e).
  - intros ->. eexists. split; [apply Hc; discriminate|]. now exists (exn_str e).
Qed.

Lemma unknown_zone_is_invalid_timezone_witness :
  get_current_time Sample.E2025 "bogus/zone"
  = Err (ValueError "Invalid timezone: 'No time zone found with key bogus/zone'").
Proof.
  refine (proj1 (proj2 (proj2
    (unknown_zone_is_invalid_timezone Sample.E2025 "bogus/zone"
       (Raise ZoneInfoNotFoundErrorC "'No time zone found with key bogus/zone'")
       _))) _).
  - reflexivity.
  - discriminate.
Defined.

Section ConversionErrors.

Variable E : env.
Variables source_tz time_str target_tz : string.

Lemma conversion_source_invalid (e : exn) :
  zoneinfo_db E source_tz = Err e ->
  conversion E source_tz time_str target_tz
  = Err (ValueError ("Invalid timezone: " ++ exn_str e)).
Proof.
  intros H. unfold conversion. now rewrite (get_zoneinfo_err E _ _ H).
Qed.

Lemma conversion_target_invalid (rs : tzinfo) (e : exn) :
  zoneinfo_db E source_tz = Ok rs ->
  zoneinfo_db E target_tz = Err e ->
  conversion E source_tz time_str target_tz
  = Err (ValueError ("Invalid timezone: " ++ exn_str e)).
Proof.
  intros Hs Ht. unfold conversion.
  rewrite (get_zoneinfo_ok E _ _ Hs). cbn [bind].
  now rewrite (get_zoneinfo_err E _ _ Ht).
Qed.


Lemma convert_time_err (e : exn) :
  conversion E source_tz time_str target_tz = Err e ->
  convert_time E source_tz time_str target_tz = Err e.
Proof. intros H. unfold convert_time. now rewrite H. Qed.

Lemma convert_time_err_inv (e : exn) :
  convert_time E source_tz time_str target_tz = Err e ->
  conversion E source_tz time_str target_tz = Err e.
Proof.
  unfold convert_time.
  destruct (conversion E source_tz time_str target_tz); simpl; congruence.
Qed.

Lemma convert_time_ok_inv (r : TimeConversionResult) :
  convert_time E source_tz time_str target_tz = Ok r ->
  exists source_time target_time,
    conversion E source_tz time_str target_tz = Ok (source_time, target_time)
    /\ r = conversion_result source_tz target_tz source_time target_time.
Proof.
  unfold convert_time.
  destruct (conversion E source_tz time_str target_tz) as [[st tt]|]; simpl;
    [|discriminate].
  intros [= <-]. now exists st, tt.
Qed.

End ConversionErrors.




(** C10. Both zones are resolved before [time_str] is read: when either
    zone is unknown [convert_time] fails with the invalid-timezone error
    whatever [time_str] is, and when it fails with the invalid-time-format
    error both zones were known. *)
Theorem timezone_errors_precede_time_format
  (E : env) (source_tz time_str target_tz : string) :
  ((exists e, zoneinfo_db E source_tz = Err e)
   \/ (exists e, zoneinfo_db E target_tz = Err e) ->
   exists e, convert_time E source_tz time_str target_tz = Err e
             /\ InvalidTimezoneError e)
  /\ (forall e, convert_time E source_tz time_str target_tz = Err e ->
      InvalidTimeFormatError e ->
      (exists rs, zoneinfo_db E source_tz = Ok rs)
      /\ (exists rt, zoneinfo_db E target_tz = Ok rt)).
Proof.
  split.
  - intros H.
    destruct (zoneinfo_db E source_tz) as [rs|es] eqn:Hs.
    + destruct H as [[e He]|[e He]]; [discriminate|].
      exists (ValueError ("Invalid timezone: " ++ exn_str e)). split.
      * apply convert_time_err. now apply (conversion_target_invalid E _ _ _ rs).
      * now exists (exn_str e).
    + exists (ValueError ("Invalid timezone: " ++ exn_str es)). split.
      * apply convert_time_err. now apply conversion_source_invalid.
      * now exists (exn_str es).
  - intros e He Hf. apply convert_time_err_inv in He. red in Hf. subst e.
    destruct (zoneinfo_db E source_tz) as [rs|es] eqn:Hs.
    + split; [now exists rs|].
      destruct (zoneinfo_db E target_tz) as [rt|et] eqn:Ht; [now exists rt|].
      rewrite (conversion_target_invalid E _ time_str _ rs et Hs Ht) in He.
      injection He as He. exfalso.
      apply (invalid_timezone_is_not_time_format (exn_str et)).
      unfold ValueError. now rewrite He.
    + rewrite (conversion_source_invalid E _ time_str target_tz es Hs) in He.
      injection He as He. exfalso.
      apply (invalid_timezone_is_not_time_format (exn_str es)).
      unfold ValueError. now rewrite He.
Qed.

Lemma timezone_errors_precede_time_format_witness :
  exists e, convert_time Sample.E2025 "bogus/zone" "25:61" "UTC" = Err e
            /\ InvalidTimezoneError e.
Proof.
  apply (proj1 (timezone_errors_precede_time_format
                  Sample.E2025 "bogus/zone" "25:61" "UTC")).
  left. eexists. reflexivity.
Defined.

Section LocalAlias.

Lemma conversion_ignores_local_settings (E E' : env) :
  zoneinfo_db E = zoneinfo_db E' -> utcnow E = utcnow E' ->
  forall source_tz time_str target_tz,
    convert_time E source_tz time_str target_tz
    = convert_time E' source_tz time_str target_tz.
Proof.
  intros Hdb Hclk source_tz time_str target_tz.
  unfold convert_time, conversion, get_zoneinfo, new_ZoneInfo, now.
  now rewrite Hdb, Hclk.
Qed.

Lemma get_current_time_local (E : env) :
  get_current_time E "local"
  = match get_local_tz E (local_timezone E) with
    | Ok name =>
        timezone <- get_zoneinfo E name ;;
        current_time <- now E timezone ;;
        Ok {| timezone := name;
              datetime := aware_isoformat_seconds current_time;
              is_dst := timedelta_bool (aware_dst current_time) |}
    | Err e => Err e
    end.
Proof. unfold get_current_time. simpl String.eqb. cbv iota. reflexivity. Qed.

Lemma get_current_time_named (E : env) (name : string) :
  name <> "local"%string ->
  get_current_time E name
  = (timezone <- get_zoneinfo E name ;;
     current_time <- now E timezone ;;
     Ok {| timezone := name;
           datetime := aware_isoformat_seconds current_time;
           is_dst := timedelta_bool (aware_dst current_time) |}).
Proof.
  intros Hn. unfold get_current_time.
  destruct (String.eqb_spec name "local"); [contradiction|reflexivity].
Qed.

End LocalAlias.

(** C6. [convert_time] resolves each of its two names as it is written:
    the alias ["local"] is looked up in the zone database like any other
    name, fails as an invalid timezone when the database has no such zone,
    and neither the configured override nor the local zone of the system
    has any part in the result; [get_current_time] is where the alias is
    replaced by the detected local zone. *)
Theorem convert_time_has_no_local_alias
  (E : env) (time_str other : string) :
  (forall e, zoneinfo_db E "local" = Err e ->
     exists e', convert_time E "local" time_str other = Err e'
                /\ InvalidTimezoneError e')
  /\ (forall e rs, zoneinfo_db E "local" = Err e ->
        zoneinfo_db E other = Ok rs ->
        convert_time E other time_str "local"
        = Err (ValueError ("Invalid timezone: " ++ exn_str e)))
  /\ (forall E', zoneinfo_db E' = zoneinfo_db E -> utcnow E' = utcnow E ->
        convert_time E' "local" time_str other = convert_time E "local" time_str other
        /\ convert_time E' other time_str "local" = convert_time E other time_str "local")
  /\ (forall name, get_local_tz E (local_timezone E) = Ok name ->
        name <> "local"%string ->
        get_current_time E "local" = get_current_time E name)
  /\ (forall e, get_local_tz E (local_timezone E) = Err e ->
        get_current_time E "local" = Err e).
Proof.
  repeat split.
  - intros e He. exists (ValueError ("Invalid timezone: " ++ exn_str e)). split.
    + apply convert_time_err. now apply conversion_source_invalid.
    + now exists (exn_str e).
  - intros e rs He Hs. apply convert_time_err.
    now apply (conversion_target_invalid E _ _ _ rs).
  - now apply conversion_ignores_local_settings.
  - now apply conversion_ignores_local_settings.
  - intros name Hl Hn. rewrite get_current_time_local, Hl.
    now rewrite get_current_time_named.
  - intros e Hl. now rewrite get_current_time_local, Hl.
Qed.

(** C7. The detection of the local zone: an override that is not empty is
    returned as it stands, whatever the zone database holds; without one,
    the label of the local zone of the system is translated to
    ["Asia/Shanghai"] when it is the Chinese label of China Standard Time,
    returned as it stands otherwise, and when the system gives no zone the
    detection fails with the local-timezone-undetermined error. *)
Theorem get_local_tz_cases (E : env) :
  (forall override, override <> EmptyString ->
     get_local_tz E (Some override) = Ok override)
  /\ (forall override, override = None \/ override = Some EmptyString ->
      (system_tzinfo E = Some china_standard_time ->
       get_local_tz E override = Ok "Asia/Shanghai"%string)
      /\ (forall label, system_tzinfo E = Some label ->
            label <> china_standard_time ->
            get_local_tz E override = Ok label)
      /\ (system_tzinfo E = None ->
          exists e, get_local_tz E override = Err e
                    /\ LocalTimezoneUndeterminedError e)).
Proof.
  split.
  - intros override Hne. unfold get_local_tz, truthy.
    destruct override; [contradiction|reflexivity].
  - intros override Hov.
    assert (Hf : truthy override = false) by (destruct Hov as [-> | ->]; reflexivity).
    unfold get_local_tz. rewrite Hf. repeat split.
    + intros ->. reflexivity.
    + intros label -> Hne. cbn [str_tzinfo].
      destruct (String.eqb_spec label china_standard_time); [contradiction|reflexivity].
    + intros ->. eexists. split; reflexivity.
Qed.

Lemma get_local_tz_cases_witness :
  get_local_tz (Sample.E (Some "Europe/Paris"%string) None (Sample.at_utc 2025 4 2 12 34 56))
               (Some "Europe/Paris"%string)
  = Ok "Europe/Paris"%string
  /\ zoneinfo_db (Sample.E (Some "Europe/Paris"%string) None (Sample.at_utc 2025 4 2 12 34 56))
                 "Europe/Paris"
     = Err (Raise ZoneInfoNotFoundErrorC "'No time zone found with key Europe/Paris'").
Proof.
  split.
  - apply (proj1 (get_local_tz_cases _)). discriminate.
  - reflexivity.
Defined.

Lemma convert_time_has_no_local_alias_witness :
  exists e', convert_time Sample.E2025 "local" "10:00" "UTC" = Err e'
             /\ InvalidTimezoneError e'.
Proof.
  apply (proj1 (convert_time_has_no_local_alias Sample.E2025 "10:00" "UTC")
               (Raise ZoneInfoNotFoundErrorC "'No time zone found with key local'")).
  reflexivity.
Defined.

(** ** The conversion *)

Section ConversionFacts.

Import Datetime.

Lemma or_zero_id (td : Z) : Timedelta.or_zero td = td.
Proof. unfold Timedelta.or_zero. destruct (Z.eqb_spec td 0); congruence. Qed.

Lemma astimezone_inv (a a' : aware) (tz : ZoneInfo) :
  astimezone a tz = Ok a' ->
  (same_object tz (zone a) = true /\ a' = a)
  \/ (same_object tz (zone a) = false
      /\ exists utc w,
           sub (fields a) (aware_utcoffset a) = Ok utc
           /\ fromutc (rules tz) utc = Ok w
           /\ a' = {| fields := w; zone := tz |}).
Proof.
  unfold astimezone. destruct (same_object tz (zone a)).
  - intros [= <-]. now left.
  - destruct (sub (fields a) (aware_utcoffset a)) as [utc|] eqn:Hs; cbn [bind];
      [|discriminate].
    destruct (fromutc (rules tz) utc) as [w|] eqn:Hf; cbn [bind]; [|discriminate].
    intros [= <-]. right. split; [reflexivity|]. now exists utc, w.
Qed.

Lemma astimezone_same_instant (a a' : aware) (tz : ZoneInfo) :
  valid (fields a) -> tz_coherent (rules tz) ->
  astimezone a tz = Ok a' ->
  valid (fields a') /\ instant a' = instant a.
Proof.
  intros Va [Hc _] H.
  destruct (astimezone_inv _ _ _ H) as [[_ ->]|(_ & utc & w & Hs & Hf & ->)].
  - now split.
  - unfold sub in Hs.
    pose proof (add_valid _ _ _ Va Hs) as Vu.
    apply add_ok in Hs as (_ & _ & _ & Hsec).
    destruct (Hc utc w Vu Hf) as [Vw Hi].
    split; [exact Vw|]. unfold instant, aware_utcoffset. cbn [fields zone].
    rewrite Hi, Hsec. unfold aware_utcoffset. lia.
Qed.

Lemma conversion_inv (E : env) (source_tz time_str target_tz : string)
  (source_time target_time : aware) :
  conversion E source_tz time_str target_tz = Ok (source_time, target_time) ->
  exists rs rt h m n,
    zoneinfo_db E source_tz = Ok rs
    /\ zoneinfo_db E target_tz = Ok rt
    /\ Strptime.strptime_HM time_str = Ok (h, m)
    /\ fromutc rs (utcnow E) = Ok n
    /\ source_time
       = {| fields := new (year n) (month n) (day n) h m;
            zone := {| key := source_tz; rules := rs |} |}
    /\ astimezone source_time {| key := target_tz; rules := rt |} = Ok target_time.
Proof.
  unfold conversion, get_zoneinfo, new_ZoneInfo, now.
  destruct (zoneinfo_db E source_tz) as [rs|] eqn:Hs; cbn [bind except_Exception];
    [|discriminate].
  destruct (zoneinfo_db E target_tz) as [rt|] eqn:Ht; cbn [bind except_Exception];
    [|discriminate].
  destruct (Strptime.strptime_HM time_str) as [[h m]|e] eqn:Hp;
    cbn [bind except_ValueError fst snd].
  2:{ destruct (exn_cls e); discriminate. }
  cbn [rules].
  destruct (fromutc rs (utcnow E)) as [n|] eqn:Hn; cbn [bind fields]; [|discriminate].
  match goal with |- context [astimezone ?a ?z] => destruct (astimezone a z) as [tt|] eqn:Ha end;
    cbn [bind]; [|discriminate].
  intros [= <- <-]. exists rs, rt, h, m, n. repeat split; assumption.
Qed.

Lemma conversion_target_zone (E : env) (source_tz target_tz : string)
  (rs rt : tzinfo) (a a' : aware) :
  zoneinfo_db E source_tz = Ok rs ->
  zoneinfo_db E target_tz = Ok rt ->
  zone a = {| key := source_tz; rules := rs |} ->
  astimezone a {| key := target_tz; rules := rt |} = Ok a' ->
  zone a' = {| key := target_tz; rules := rt |}.
Proof.
  intros Hs Ht Hz H.
  destruct (astimezone_inv _ _ _ H) as [[Hsame ->]|(_ & utc & w & _ & _ & ->)];
    [|reflexivity].
  unfold same_object in Hsame. rewrite Hz in *. cbn [key] in Hsame.
  apply String.eqb_eq in Hsame. subst target_tz.
  rewrite Hs in Ht. now injection Ht as ->.
Qed.

Lemma source_time_valid (n : t) (h m : Z) (time_str : string) :
  valid n -> Strptime.strptime_HM time_str = Ok (h, m) ->
  valid (new (year n) (month n) (day n) h m).
Proof.
  intros (Hy & Hd & _) Hp. apply strptime_HM_spec in Hp.
  destruct Hp as (hs & ms & _ & (_ & _ & _ & Hh) & (_ & _ & _ & Hm)).
  unfold valid, new. cbn [year month day hour minute second microsecond].
  repeat split; try apply Hy; try apply Hd; lia.
Qed.

End ConversionFacts.

Lemma sample_env_wf (override label : option string) (clock : Datetime.t) :
  Datetime.valid clock -> env_wf (Sample.E override label clock).
Proof.
  intros Hc. split; [|exact Hc].
  assert (F : forall off, -86400 < off < 86400 -> tz_coherent (Sample.fixed off)).
  { intros off Hoff. split; [|intros w; exact Hoff].
    intros u w Vu H. cbn [Sample.fixed fromutc utcoffset] in *.
    split; [exact (add_valid _ _ _ Vu H)|].
    apply add_ok in H as (_ & _ & _ & Hs). lia. }
  intros k z. cbn [Sample.E zoneinfo_db]. unfold Sample.db.
  repeat match goal with
         | |- context [String.eqb k ?s] => destruct (String.eqb k s)
         end; intros [= <-]; apply F; lia.
Qed.

Lemma sample_clock_2025_valid : Datetime.valid (Sample.at_utc 2025 4 2 12 34 56).
Proof.
  unfold Datetime.valid, Calendar.valid_date, Calendar.MINYEAR, Calendar.MAXYEAR.
  cbn. lia.
Qed.

Lemma sample_clock_1971_valid : Datetime.valid (Sample.at_utc 1971 6 1 12 0 0).
Proof.
  unfold Datetime.valid, Calendar.valid_date, Calendar.MINYEAR, Calendar.MAXYEAR.
  cbn. lia.
Qed.

(** C3. For a successful [convert_time] the difference string is the
    rendering of a float that is the quotient by 3600, up to the rounding of
    a float, of the offset of the target zone at the target date-time less
    the offset of the source zone at the source date-time, both looked up
    through the zone at that date-time; from offsets of +5:30 and of zero
    the string is ["-5.5h"]. *)
Theorem hours_difference_is_offset_difference
  (E : env) (source_tz time_str target_tz : string) (r : TimeConversionResult) :
  env_wf E ->
  convert_time E source_tz time_str target_tz = Ok r ->
  exists source_time target_time rs rt,
    conversion E source_tz time_str target_tz = Ok (source_time, target_time)
    /\ zoneinfo_db E source_tz = Ok rs
    /\ zoneinfo_db E target_tz = Ok rt
    /\ zone source_time = {| key := source_tz; rules := rs |}
    /\ zone target_time = {| key := target_tz; rules := rt |}
    /\ let source_offset := utcoffset rs (fields source_time) in
       let target_offset := utcoffset rt (fields target_time) in
       time_difference r = time_diff_str (hours_difference target_offset source_offset)
       /\ is_hours (hours_difference target_offset source_offset)
                   (target_offset - source_offset)
       /\ (source_offset = 19800 -> target_offset = 0 ->
           time_difference r = "-5.5h"%string).
Proof.
  intros [Hwf _] H.
  destruct (convert_time_ok_inv _ _ _ _ _ H) as (st & tt & Hc & ->).
  destruct (conversion_inv _ _ _ _ _ _ Hc) as (rs & rt & h & m & n & Hs & Ht & Hp & Hn & Hst & Ha).
  assert (Hzs : zone st = {| key := source_tz; rules := rs |}) by (now subst st).
  pose proof (conversion_target_zone E _ _ _ _ _ _ Hs Ht Hzs Ha) as Hzt.
  exists st, tt, rs, rt. repeat split; try assumption.
  - unfold conversion_result. cbn [time_difference].
    rewrite !or_zero_id. unfold aware_utcoffset. now rewrite Hzs, Hzt.
  - apply hours_difference_is_hours.
    + apply (Hwf _ _ Ht).
    + apply (Hwf _ _ Hs).
  - intros Ho Hu. unfold conversion_result. cbn [time_difference].
    rewrite !or_zero_id. unfold aware_utcoffset. rewrite Hzs, Hzt. cbn [rules].
    rewrite Ho, Hu. vm_compute. reflexivity.
Qed.

Lemma sample_run_kolkata :
  convert_time Sample.E2025 "Asia/Kolkata" "10:00" "UTC"
  = Ok {| source := {| timezone := "Asia/Kolkata";
                       datetime := "2025-04-02T10:00:00+05:30";
                       is_dst := false |};
          target := {| timezone := "UTC";
                       datetime := "2025-04-02T04:30:00+00:00";
                       is_dst := false |};
          time_difference := "-5.5h" |}.
Proof. vm_compute. reflexivity. Qed.

Lemma hours_difference_is_offset_difference_witness :
  exists source_time target_time,
    conversion Sample.E2025 "Asia/Kolkata" "10:00" "UTC" = Ok (source_time, target_time)
    /\ is_hours (hours_difference (aware_utcoffset target_time)
                                  (aware_utcoffset source_time))
                (aware_utcoffset target_time - aware_utcoffset source_time).
Proof.
  destruct (hours_difference_is_offset_difference
              Sample.E2025 "Asia/Kolkata" "10:00" "UTC" _
              (sample_env_wf _ _ _ sample_clock_2025_valid) sample_run_kolkata)
    as (st & tt & rs & rt & Hc & _ & _ & Hzs & Hzt & _ & Hh & _).
  exists st, tt. split; [exact Hc|].
  unfold aware_utcoffset. rewrite Hzs, Hzt. exact Hh.
Defined.

(** C4. For a successful [convert_time] the source date-time has the year,
    month and day that the clock shows in the source zone, the hour and
    minute read from [time_str], no seconds, and the source zone; the
    target date-time is in the target zone and is the same instant; the two
    texts of the result are these two date-times. *)
Theorem conversion_builds_today_in_the_source_zone
  (E : env) (source_tz time_str target_tz : string) (r : TimeConversionResult) :
  env_wf E ->
  convert_time E source_tz time_str target_tz = Ok r ->
  exists source_time target_time source_timezone target_timezone now_ h m,
    get_zoneinfo E source_tz = Ok source_timezone
    /\ get_zoneinfo E target_tz = Ok target_timezone
    /\ now E source_timezone = Ok now_
    /\ Strptime.spec_HHMM time_str h m
    /\ fields source_time
       = Datetime.mk (Datetime.year (fields now_)) (Datetime.month (fields now_))
                     (Datetime.day (fields now_)) h m 0 0 0
    /\ zone source_time = source_timezone
    /\ zone target_time = target_timezone
    /\ Datetime.valid (fields target_time)
    /\ instant target_time = instant source_time
    /\ datetime (source r) = aware_isoformat_seconds source_time
    /\ datetime (target r) = aware_isoformat_seconds target_time.
Proof.
  intros [Hwf Hclk] H.
  destruct (convert_time_ok_inv _ _ _ _ _ H) as (st & tt & Hc & ->).
  destruct (conversion_inv _ _ _ _ _ _ Hc) as (rs & rt & h & m & n & Hs & Ht & Hp & Hn & Hst & Ha).
  assert (Hzs : zone st = {| key := source_tz; rules := rs |}) by (now subst st).
  pose proof (conversion_target_zone E _ _ _ _ _ _ Hs Ht Hzs Ha) as Hzt.
  destruct (Hwf _ _ Hs) as [Hcs _].
  destruct (Hcs _ _ Hclk Hn) as [Vn _].
  assert (Vst : Datetime.valid (fields st))
    by (subst st; exact (source_time_valid n h m time_str Vn Hp)).
  destruct (astimezone_same_instant st tt {| key := target_tz; rules := rt |} Vst
              (Hwf _ _ Ht) Ha) as [Vtt Hi].
  exists st, tt, {| key := source_tz; rules := rs |}, {| key := target_tz; rules := rt |},
    {| fields := n; zone := {| key := source_tz; rules := rs |} |}, h, m.
  repeat split; try assumption; try apply Vtt.
  - now apply get_zoneinfo_ok.
  - now apply get_zoneinfo_ok.
  - unfold now. cbn [rules]. now rewrite Hn.
  - now apply strptime_HM_spec.
  - now subst st.
Qed.

Lemma sample_run_shanghai :
  convert_time Sample.E2025 "UTC" "23:30" "Asia/Shanghai"
  = Ok {| source := {| timezone := "UTC";
                       datetime := "2025-04-02T23:30:00+00:00";
                       is_dst := false |};
          target := {| timezone := "Asia/Shanghai";
                       datetime := "2025-04-03T07:30:00+08:00";
                       is_dst := false |};
          time_difference := "+8.0h" |}.
Proof. vm_compute. reflexivity. Qed.

Lemma conversion_builds_today_in_the_source_zone_witness :
  exists source_time target_time,
    instant target_time = instant source_time
    /\ aware_isoformat_seconds source_time = "2025-04-02T23:30:00+00:00"%string
    /\ aware_isoformat_seconds target_time = "2025-04-03T07:30:00+08:00"%string.
Proof.
  destruct (conversion_builds_today_in_the_source_zone
              Sample.E2025 "UTC" "23:30" "Asia/Shanghai" _
              (sample_env_wf _ _ _ sample_clock_2025_valid) sample_run_shanghai)
    as (st & tt & zs & zt & n & h & m & _ & _ & _ & _ & _ & _ & _ & _ & Hi & Hd1 & Hd2).
  exists st, tt. split; [exact Hi|]. split; [now rewrite <- Hd1|now rewrite <- Hd2].
Defined.

(** ** The [datetime] text *)

Section IsoText.

Import Datetime.

Lemma digit_char_is_digit (k : Z) : 0 <= k <= 9 -> is_digit (digit_char k) = true.
Proof.
  intros H.
  assert (Hc : k = 0 \/ k = 1 \/ k = 2 \/ k = 3 \/ k = 4 \/ k = 5 \/ k = 6 \/ k = 7
               \/ k = 8 \/ k = 9) by lia.
  decompose [or] Hc; subst k; reflexivity.
Qed.

Lemma shape_two_digits (n : Z) (p : list char_class) (s : string) :
  0 <= n < 100 ->
  shape (Digit :: Digit :: p) (two_digits n ++ s) = shape p s.
Proof.
  intros H. unfold two_digits. cbn [String.append shape in_class].
  now rewrite !digit_char_is_digit by lia.
Qed.

Lemma shape_four_digits (n : Z) (p : list char_class) (s : string) :
  0 <= n < 10000 ->
  shape (Digit :: Digit :: Digit :: Digit :: p) (four_digits n ++ s) = shape p s.
Proof.
  intros H. unfold four_digits. cbn [String.append shape in_class].
  rewrite !digit_char_is_digit by lia.
  apply (shape_two_digits (n mod 100)). lia.
Qed.

Lemma shape_literal (c : ascii) (p : list char_class) (s : string) :
  shape (Literal c :: p) (String c s) = shape p s.
Proof. cbn [shape in_class]. now rewrite Ascii.eqb_refl. Qed.

Lemma shape_date_time (w : t) (s : string) :
  valid w ->
  shape (iso_date_time ++ iso_offset) (isoformat_naive w ++ s) = shape iso_offset s.
Proof.
  intros (Hy & (Hm & Hd) & Hh & Hmi & Hs & _).
  assert (Hdim : Calendar.days_in_month (year w) (month w) <= 31).
  { unfold Calendar.days_in_month.
    destruct ((month w =? 2) && Calendar.is_leap (year w)); [lia|].
    assert (Hc : month w = 1 \/ month w = 2 \/ month w = 3 \/ month w = 4
                 \/ month w = 5 \/ month w = 6 \/ month w = 7 \/ month w = 8
                 \/ month w = 9 \/ month w = 10 \/ month w = 11 \/ month w = 12) by lia.
    decompose [or] Hc; match goal with H : month w = _ |- _ => rewrite H end;
      cbn; lia. }
  unfold Calendar.MINYEAR, Calendar.MAXYEAR in Hy.
  unfold isoformat_naive.
  rewrite zfill4_four_digits by lia.
  rewrite !zfill2_two_digits by lia.
  rewrite !append_assoc. cbn [iso_date_time app].
  rewrite shape_four_digits by lia. cbn [String.append]. rewrite shape_literal.
  rewrite shape_two_digits by lia. cbn [String.append]. rewrite shape_literal.
  rewrite shape_two_digits by lia. cbn [String.append]. rewrite shape_literal.
  rewrite shape_two_digits by lia. cbn [String.append]. rewrite shape_literal.
  rewrite shape_two_digits by lia. cbn [String.append]. rewrite shape_literal.
  rewrite shape_two_digits by lia. reflexivity.
Qed.

Lemma iso_text_of_aware (w : t) (off : Z) :
  valid w -> -86400 < off < 86400 ->
  iso_seconds_with_offset (isoformat_seconds w (Some off)) = true.
Proof.
  intros V Hoff. unfold iso_seconds_with_offset, isoformat_seconds.
  rewrite (shape_date_time w _ V).
  unfold format_offset. cbv zeta.
  set (a := Z.abs off).
  assert (Ha : 0 <= a < 86400) by (subst a; lia).
  rewrite !zfill2_two_digits by lia.
  assert (Hsign : forall s : string,
             shape iso_offset (String.append (if off <? 0 then "-" else "+") s)
             = shape (tl iso_offset) s).
  { intros s. destruct (off <? 0); reflexivity. }
  rewrite Hsign. cbn [iso_offset tl].
  rewrite shape_two_digits by lia. cbn [String.append]. rewrite shape_literal.
  destruct (Z.eqb_spec (a mod 60) 0) as [Hz|Hnz].
  - unfold two_digits. cbn [String.append shape in_class].
    now rewrite !digit_char_is_digit by lia.
  - rewrite shape_two_digits by lia. unfold two_digits.
    cbn [shape String.append in_class].
    change (Ascii.eqb ":" ":") with true. cbv iota.
    now rewrite !digit_char_is_digit by lia.
Qed.

Lemma naive_text_is_rejected (w : t) :
  valid w -> iso_seconds_with_offset (isoformat_seconds w None) = false.
Proof.
  intros V. unfold iso_seconds_with_offset, isoformat_seconds.
  rewrite (shape_date_time w _ V). reflexivity.
Qed.

Lemma get_current_time_inv (E : env) (timezone_name : string) (r : TimeResult) :
  get_current_time E timezone_name = Ok r ->
  exists name rs n,
    zoneinfo_db E name = Ok rs
    /\ fromutc rs (utcnow E) = Ok n
    /\ timezone r = name
    /\ datetime r
       = aware_isoformat_seconds
           {| fields := n; zone := {| key := name; rules := rs |} |}.
Proof.
  unfold get_current_time.
  destruct (if String.eqb timezone_name "local"
            then get_local_tz E (local_timezone E) else Ok timezone_name)
    as [name|]; cbn [bind]; [|discriminate].
  unfold get_zoneinfo, new_ZoneInfo, now.
  destruct (zoneinfo_db E name) as [rs|] eqn:Hs; cbn [bind except_Exception rules];
    [|discriminate].
  destruct (fromutc rs (utcnow E)) as [n|] eqn:Hn; cbn [bind]; [|discriminate].
  intros [= <-]. exists name, rs, n. repeat split; assumption.
Qed.

End IsoText.

(** C9. Whatever [get_current_time] and [convert_time] return, the
    [datetime] texts are a date and a time written to the second and
    followed by the signed offset: they are never the text of a naive
    date-time, which stops after the seconds. *)
Theorem datetime_text_is_aware_iso (E : env) :
  env_wf E ->
  (forall timezone_name r,
     get_current_time E timezone_name = Ok r ->
     iso_seconds_with_offset (datetime r) = true)
  /\ (forall source_tz time_str target_tz r,
        convert_time E source_tz time_str target_tz = Ok r ->
        iso_seconds_with_offset (datetime (source r)) = true
        /\ iso_seconds_with_offset (datetime (target r)) = true)
  /\ (forall w, Datetime.valid w ->
        iso_seconds_with_offset (Datetime.isoformat_seconds w None) = false).
Proof.
  intros [Hwf Hclk]. split; [|split].
  - intros name r H.
    destruct (get_current_time_inv _ _ _ H) as (k & rs & n & Hs & Hn & _ & ->).
    destruct (Hwf _ _ Hs) as [Hc Hb].
    destruct (Hc _ _ Hclk Hn) as [Vn _].
    unfold aware_isoformat_seconds, aware_utcoffset. cbn [fields zone rules].
    apply iso_text_of_aware; [exact Vn|apply Hb].
  - intros source_tz time_str target_tz r H.
    destruct (convert_time_ok_inv _ _ _ _ _ H) as (st & tt & Hc & ->).
    destruct (conversion_inv _ _ _ _ _ _ Hc)
      as (rs & rt & h & m & n & Hs & Ht & Hp & Hn & Hst & Ha).
    assert (Hzs : zone st = {| key := source_tz; rules := rs |}) by (now subst st).
    pose proof (conversion_target_zone E _ _ _ _ _ _ Hs Ht Hzs Ha) as Hzt.
    destruct (Hwf _ _ Hs) as [Hcs Hbs].
    destruct (Hwf _ _ Ht) as [Hct Hbt].
    destruct (Hcs _ _ Hclk Hn) as [Vn _].
    assert (Vst : Datetime.valid (fields st))
      by (subst st; exact (source_time_valid n h m time_str Vn Hp)).
    destruct (astimezone_same_instant st tt {| key := target_tz; rules := rt |} Vst
                (Hwf _ _ Ht) Ha) as [Vtt _].
    unfold conversion_result. cbn [source target datetime].
    unfold aware_isoformat_seconds, aware_utcoffset. rewrite Hzs, Hzt. cbn [rules].
    split; apply iso_text_of_aware; auto.
  - intros w V. now apply naive_text_is_rejected.
Qed.

Lemma sample_run_now_kolkata :
  get_current_time Sample.E2025 "Asia/Kolkata"
  = Ok {| timezone := "Asia/Kolkata";
          datetime := "2025-04-02T18:04:56+05:30";
          is_dst := false |}.
Proof. vm_compute. reflexivity. Qed.

Lemma datetime_text_is_aware_iso_witness :
  iso_seconds_with_offset "2025-04-02T18:04:56+05:30" = true.
Proof.
  exact (proj1 (datetime_text_is_aware_iso Sample.E2025
                  (sample_env_wf _ _ _ sample_clock_2025_valid))
               "Asia/Kolkata" _ sample_run_now_kolkata).
Defined.

(** ** The round trip *)

Section RoundTrip.

Import Datetime.

Lemma digit_char_value (k : Z) :
  0 <= k <= 9 -> Strptime.digit_value (digit_char k) = Some k.
Proof.
  intros H.
  assert (Hc : k = 0 \/ k = 1 \/ k = 2 \/ k = 3 \/ k = 4 \/ k = 5 \/ k = 6 \/ k = 7
               \/ k = 8 \/ k = 9) by lia.
  decompose [or] Hc; subst k; reflexivity.
Qed.

Lemma field_two_digits (n max : Z) :
  0 <= n <= max -> max < 100 -> Strptime.field (two_digits n) n max.
Proof.
  intros Hn Hmax. unfold Strptime.field, two_digits, Strptime.int.
  cbn [String.length Strptime.all_digits Strptime.int_from].
  rewrite !digit_char_value by lia.
  repeat split; auto; lia.
Qed.

Lemma strptime_HHMM (w : t) :
  0 <= hour w < 24 -> 0 <= minute w < 60 ->
  Strptime.strptime_HM (HHMM w) = Ok (hour w, minute w).
Proof.
  intros Hh Hm. apply strptime_HM_complete.
  exists (two_digits (hour w)), (two_digits (minute w)).
  unfold HHMM. rewrite !zfill2_two_digits by lia.
  split; [reflexivity|].
  split; apply field_two_digits; lia.
Qed.

Lemma isoformat_same_wall_clock (w w' : t) (off : option Z) :
  same_wall_clock w w' -> isoformat_seconds w off = isoformat_seconds w' off.
Proof.
  intros ((Hy & Hm & Hd) & (Hh & Hmi & Hs)).
  unfold isoformat_seconds, isoformat_naive.
  now rewrite Hy, Hm, Hd, Hh, Hmi, Hs.
Qed.

End RoundTrip.

(** C5, as the claim has it, fails: from UTC to a zone whose offset has
    seconds (-0:44:30) the time 10:00 comes out as 09:15:30, the text handed
    back is 09:15, and the way back, on the same date and with the same
    offsets, gives 09:59:30. *)
Lemma roundtrip_counterexample :
  ~ roundtrip_holds Sample.E1971 Sample.E1971 "UTC" "10:00" "Africa/Monrovia".
Proof.
  intros H.
  pose (utc := {| key := "UTC"%string; rules := Sample.fixed 0 |}).
  pose (mon := {| key := "Africa/Monrovia"%string; rules := Sample.fixed (-2670) |}).
  specialize (H {| fields := Datetime.mk 1971 6 1 10 0 0 0 0; zone := utc |}
                {| fields := Datetime.mk 1971 6 1 9 15 30 0 0; zone := mon |}
                {| fields := Datetime.mk 1971 6 1 9 15 0 0 0; zone := mon |}
                {| fields := Datetime.mk 1971 6 1 9 59 30 0 0; zone := utc |}).
  assert (P : same_time_of_day (Datetime.mk 1971 6 1 9 59 30 0 0)
                               (Datetime.mk 1971 6 1 10 0 0 0 0)).
  { apply H.
    - unfold roundtrip_premises. cbn [fields]. repeat split; vm_compute; reflexivity.
    - unfold same_date. cbn [fields]. repeat split. }
  destruct P as (Hh & _). discriminate Hh.
Qed.

(** C5, amended. When moreover the first target time has no seconds (the two
    offsets differ by whole minutes), the way back gives the time of day
    that the first conversion built in [A]; made on the date of the first
    target it gives the same date as well, and the same text. *)
Theorem roundtrip_without_seconds
  (E1 E2 : env) (A time_str B : string)
  (source1 target1 source2 target2 : aware) :
  env_wf E1 -> env_wf E2 ->
  roundtrip_premises E1 E2 A time_str B source1 target1 source2 target2 ->
  Datetime.second (fields target1) = 0 ->
  same_time_of_day (fields target2) (fields source1)
  /\ (same_date (fields source2) (fields target1) ->
      same_wall_clock (fields target2) (fields source1)
      /\ aware_isoformat_seconds target2 = aware_isoformat_seconds source1).
Proof.
  intros [Hwf1 Hclk1] [Hwf2 Hclk2] (Hc1 & Hc2 & HoB & HoA) Hsec.
  destruct (conversion_inv _ _ _ _ _ _ Hc1)
    as (rs1 & rt1 & h1 & m1 & n1 & Hs1 & Ht1 & Hp1 & Hn1 & Hst1 & Ha1).
  destruct (conversion_inv _ _ _ _ _ _ Hc2)
    as (rs2 & rt2 & h2 & m2 & n2 & Hs2 & Ht2 & Hp2 & Hn2 & Hst2 & Ha2).
  (* the first conversion *)
  destruct (Hwf1 _ _ Hs1) as [Hcs1 _].
  destruct (Hcs1 _ _ Hclk1 Hn1) as [Vn1 _].
  assert (Vst1 : Datetime.valid (fields source1))
    by (subst source1; exact (source_time_valid n1 h1 m1 time_str Vn1 Hp1)).
  destruct (astimezone_same_instant source1 target1 {| key := B; rules := rt1 |} Vst1
              (Hwf1 _ _ Ht1) Ha1) as [Vtt1 Hi1].
  (* the text handed back *)
  assert (Hhm : h2 = Datetime.hour (fields target1) /\ m2 = Datetime.minute (fields target1)).
  { destruct Vtt1 as (_ & _ & Hh & Hm & _).
    rewrite (strptime_HHMM (fields target1) Hh Hm) in Hp2. now injection Hp2 as <- <-. }
  (* the second conversion *)
  destruct (Hwf2 _ _ Hs2) as [Hcs2 _].
  destruct (Hcs2 _ _ Hclk2 Hn2) as [Vn2 _].
  assert (Vst2 : Datetime.valid (fields source2)).
  { subst source2. apply (source_time_valid n2 h2 m2 (HHMM (fields target1)) Vn2).
    destruct Vtt1 as (_ & _ & Hh & Hm & _). destruct Hhm as [-> ->].
    now apply strptime_HHMM. }
  destruct (astimezone_same_instant source2 target2 {| key := A; rules := rt2 |} Vst2
              (Hwf2 _ _ Ht2) Ha2) as [Vtt2 Hi2].
  (* the seconds of the day of the second source are those of the first target *)
  assert (Hs : Datetime.seconds (fields source2)
               - Datetime.toordinal (fields source2) * 86400
               = Datetime.seconds (fields target1)
                 - Datetime.toordinal (fields target1) * 86400).
  { destruct Hhm as [Hh Hmi]. unfold Datetime.seconds.
    subst source2. cbn [fields Datetime.new Datetime.hour Datetime.minute Datetime.second].
    rewrite Hh, Hmi, Hsec. lia. }
  assert (Hd : Datetime.seconds (fields target2) - Datetime.seconds (fields source1)
               = (Datetime.toordinal (fields source2)
                  - Datetime.toordinal (fields target1)) * 86400).
  { unfold instant in Hi1, Hi2. lia. }
  assert (T : same_time_of_day (fields target2) (fields source1)).
  { unfold Datetime.seconds in Hd.
    destruct Vtt2 as (_ & _ & ? & ? & ? & _). destruct Vst1 as (_ & _ & ? & ? & ? & _).
    unfold same_time_of_day. lia. }
  split; [exact T|].
  intros (Hy & Hm & Hdy).
  assert (Heq : Datetime.seconds (fields target2) = Datetime.seconds (fields source1)).
  { unfold Datetime.toordinal in Hd. rewrite Hy, Hm, Hdy in Hd. lia. }
  assert (W : same_wall_clock (fields target2) (fields source1)).
  { destruct (seconds_inj _ _ Vtt2 Vst1 Heq) as (? & ? & ? & _).
    unfold same_wall_clock, same_date. tauto. }
  split; [exact W|].
  unfold aware_isoformat_seconds. rewrite HoA.
  now apply isoformat_same_wall_clock.
Qed.

Lemma roundtrip_without_seconds_witness :
  same_time_of_day (Datetime.mk 2025 4 2 10 0 0 0 0) (Datetime.mk 2025 4 2 10 0 0 0 0)
  /\ roundtrip_premises Sample.E2025 Sample.E2025 "Asia/Kolkata" "10:00" "UTC"
       {| fields := Datetime.mk 2025 4 2 10 0 0 0 0;
          zone := {| key := "Asia/Kolkata"; rules := Sample.fixed 19800 |} |}
       {| fields := Datetime.mk 2025 4 2 4 30 0 0 0;
          zone := {| key := "UTC"; rules := Sample.fixed 0 |} |}
       {| fields := Datetime.mk 2025 4 2 4 30 0 0 0;
          zone := {| key := "UTC"; rules := Sample.fixed 0 |} |}
       {| fields := Datetime.mk 2025 4 2 10 0 0 0 0;
          zone := {| key := "Asia/Kolkata"; rules := Sample.fixed 19800 |} |}.
Proof.
  assert (P : roundtrip_premises Sample.E2025 Sample.E2025 "Asia/Kolkata" "10:00" "UTC"
       {| fields := Datetime.mk 2025 4 2 10 0 0 0 0;
          zone := {| key := "Asia/Kolkata"; rules := Sample.fixed 19800 |} |}
       {| fields := Datetime.mk 2025 4 2 4 30 0 0 0;
          zone := {| key := "UTC"; rules := Sample.fixed 0 |} |}
       {| fields := Datetime.mk 2025 4 2 4 30 0 0 0;
          zone := {| key := "UTC"; rules := Sample.fixed 0 |} |}
       {| fields := Datetime.mk 2025 4 2 10 0 0 0 0;
          zone := {| key := "Asia/Kolkata"; rules := Sample.fixed 19800 |} |}).
  { unfold roundtrip_premises. cbn [fields]. repeat split; vm_compute; reflexivity. }
  split; [|exact P].
  exact (proj1 (roundtrip_without_seconds _ _ _ _ _ _ _ _ _
                  (sample_env_wf _ _ _ sample_clock_2025_valid)
                  (sample_env_wf _ _ _ sample_clock_2025_valid) P eq_refl)).
Defined.

(** * Further properties of the two tools *)

(** ** [get_current_time] *)

(** X1. The [timezone] of what [get_current_time] returns is the name the
    zone was resolved by: the name given, or for the alias the name that the
    detection of the local zone gave, the Chinese label of China Standard
    Time being resolved as ["Asia/Shanghai"]; that name is a zone of the
    database. *)
Theorem get_current_time_reports_the_name_used
  (E : env) (timezone_name : string) (r : TimeResult) :
  get_current_time E timezone_name = Ok r ->
  (timezone_name <> "local"%string -> timezone r = timezone_name)
  /\ (timezone_name = "local"%string ->
      get_local_tz E (local_timezone E) = Ok (timezone r))
  /\ (timezone_name = "local"%string -> truthy (local_timezone E) = false ->
      system_tzinfo E = Some china_standard_time ->
      timezone r = "Asia/Shanghai"%string)
  /\ exists rs, zoneinfo_db E (timezone r) = Ok rs.
Proof.
  intros H.
  assert (Hn : (if String.eqb timezone_name "local"
                then get_local_tz E (local_timezone E) else Ok timezone_name)
               = Ok (timezone r)
               /\ exists rs, zoneinfo_db E (timezone r) = Ok rs).
  { unfold get_current_time in H.
    destruct (if String.eqb timezone_name "local"
              then get_local_tz E (local_timezone E) else Ok timezone_name)
      as [name|]; cbn [bind] in H; [|discriminate].
    unfold get_zoneinfo, new_ZoneInfo in H.
    destruct (zoneinfo_db E name) as [rs|] eqn:Hs; cbn [bind except_Exception] in H;
      [|discriminate].
    destruct (now E _) as [c|]; cbn [bind] in H; [|discriminate].
    injection H as <-. cbn [timezone]. split; [reflexivity|now exists rs]. }
  destruct Hn as [Hn Hz].
  repeat split; try exact Hz.
  - intros Hne. destruct (String.eqb_spec timezone_name "local"); [contradiction|].
    now injection Hn.
  - intros ->. exact Hn.
  - intros -> Ht Hs. cbn [String.eqb Ascii.eqb Bool.eqb] in Hn.
    unfold get_local_tz in Hn. rewrite Ht, Hs in Hn. cbn in Hn. now injection Hn.
Qed.

Lemma get_current_time_reports_the_name_used_witness :
  get_local_tz (Sample.E (Some "Asia/Kolkata"%string) None (Sample.at_utc 2025 4 2 12 34 56))
               (Some "Asia/Kolkata"%string)
  = Ok "Asia/Kolkata"%string.
Proof.
  exact (proj1 (proj2
    (get_current_time_reports_the_name_used
       (Sample.E (Some "Asia/Kolkata"%string) None (Sample.at_utc 2025 4 2 12 34 56))
       "local"
       {| timezone := "Asia/Kolkata";
          datetime := "2025-04-02T18:04:56+05:30";
          is_dst := false |}
       ltac:(vm_compute; reflexivity))) eq_refl).
Defined.

(** X2. With the alias, an override is checked only when the zone is
    resolved: an override that the database does not know makes
    [get_current_time] fail with the invalid-timezone error carrying the
    text of the lookup; and without an override and without a zone from the
    system it fails with the error of the detection, unchanged. *)
Theorem get_current_time_local_failures (E : env) :
  (forall override e,
     local_timezone E = Some override -> override <> EmptyString ->
     zoneinfo_db E override = Err e ->
     get_current_time E "local"
     = Err (ValueError ("Invalid timezone: " ++ exn_str e)))
  /\ (truthy (local_timezone E) = false -> system_tzinfo E = None ->
      get_current_time E "local"
      = Err (ValueError "Could not determine local timezone - tzinfo is {tzinfo}"))
  /\ (forall label e,
        truthy (local_timezone E) = false -> system_tzinfo E = Some label ->
        label <> china_standard_time -> zoneinfo_db E label = Err e ->
        get_current_time E "local"
        = Err (ValueError ("Invalid timezone: " ++ exn_str e))).
Proof.
  repeat split.
  - intros override e Ho Hne He. rewrite get_current_time_local, Ho.
    unfold get_local_tz, truthy. destruct override; [contradiction|].
    cbn [PyStr.is_empty negb]. cbv iota. cbn [bind].
    now rewrite (get_zoneinfo_err E _ _ He).
  - intros Ht Hs. rewrite get_current_time_local.
    unfold get_local_tz. now rewrite Ht, Hs.
  - intros label e Ht Hs Hne He. rewrite get_current_time_local.
    unfold get_local_tz. rewrite Ht, Hs. cbn [str_tzinfo].
    destruct (String.eqb_spec label china_standard_time); [contradiction|].
    cbn [bind]. now rewrite (get_zoneinfo_err E _ _ He).
Qed.



(** ** [convert_time] *)

(** X4. Converting within one zone changes nothing: when the source and
    the target are the same name the two parts of the result are equal
    (name, text and [is_dst]) and the difference is ["+0.0h"]. *)
Theorem convert_time_within_one_zone
  (E : env) (tz time_str : string) (r : TimeConversionResult) :
  convert_time E tz time_str tz = Ok r ->
  source r = target r /\ time_difference r = "+0.0h"%string.
Proof.
  intros H.
  destruct (convert_time_ok_inv _ _ _ _ _ H) as (st & tt & Hc & ->).
  destruct (conversion_inv _ _ _ _ _ _ Hc)
    as (rs & rt & h & m & n & Hs & Ht & Hp & Hn & Hst & Ha).
  assert (Hz : zone st = {| key := tz; rules := rs |}) by (now subst st).
  destruct (astimezone_inv _ _ _ Ha) as [[_ ->]|(Hd & _)].
  - unfold conversion_result. cbn [source target time_difference]. split; [reflexivity|].
    rewrite hours_difference_shift, Z.sub_diag. reflexivity.
  - unfold same_object in Hd. rewrite Hz in Hd. cbn [key] in Hd.
    now rewrite String.eqb_refl in Hd.
Qed.

Lemma convert_time_within_one_zone_witness :
  time_difference
    {| source := {| timezone := "UTC"; datetime := "2025-04-02T00:00:00+00:00";
                    is_dst := false |};
       target := {| timezone := "UTC"; datetime := "2025-04-02T00:00:00+00:00";
                    is_dst := false |};
       time_difference := "+0.0h" |}
  = "+0.0h"%string.
Proof.
  exact (proj2 (convert_time_within_one_zone Sample.E2025 "UTC" "00:00" _
                  ltac:(vm_compute; reflexivity))).
Defined.

(** X5. [convert_time] reads nothing of [time_str] but the hour and the
    minute: two texts of the same hour and minute, padded with a zero or
    not, give the same outcome. *)
Theorem convert_time_reads_hour_and_minute
  (E : env) (source_tz target_tz time_str1 time_str2 : string) (h m : Z) :
  Strptime.spec_HHMM time_str1 h m ->
  Strptime.spec_HHMM time_str2 h m ->
  convert_time E source_tz time_str1 target_tz
  = convert_time E source_tz time_str2 target_tz.
Proof.
  intros H1 H2. apply strptime_HM_complete in H1, H2.
  unfold convert_time, conversion. now rewrite H1, H2.
Qed.

Lemma convert_time_reads_hour_and_minute_witness :
  convert_time Sample.E2025 "UTC" "9:5" "Asia/Shanghai"
  = convert_time Sample.E2025 "UTC" "09:05" "Asia/Shanghai".
Proof.
  apply (convert_time_reads_hour_and_minute Sample.E2025 "UTC" "Asia/Shanghai"
           "9:5" "09:05" 9 5).
  - apply strptime_HM_sound. reflexivity.
  - apply strptime_HM_sound. reflexivity.
Defined.

(** X6. Of the clock [convert_time] uses the date in the source zone and
    nothing else: two environments with the same zones, whose clocks show
    the same year, month and day there, give the same outcome. *)
Theorem convert_time_uses_the_date_only
  (E E' : env) (source_tz time_str target_tz : string)
  (rs : tzinfo) (n n' : Datetime.t) :
  zoneinfo_db E' = zoneinfo_db E ->
  zoneinfo_db E source_tz = Ok rs ->
  fromutc rs (utcnow E) = Ok n ->
  fromutc rs (utcnow E') = Ok n' ->
  same_date n n' ->
  convert_time E source_tz time_str target_tz
  = convert_time E' source_tz time_str target_tz.
Proof.
  intros Hdb Hs Hn Hn' (Hy & Hm & Hd).
  unfold convert_time, conversion, get_zoneinfo, new_ZoneInfo, now.
  rewrite Hdb, Hs. cbn [bind except_Exception rules].
  destruct (zoneinfo_db E target_tz) as [rt|]; cbn [bind except_Exception]; [|reflexivity].
  destruct (except_ValueError (Strptime.strptime_HM time_str) (ValueError invalid_time_format))
    as [p|]; cbn [bind]; [|reflexivity].
  rewrite Hn, Hn'. cbn [bind fields]. now rewrite Hy, Hm, Hd.
Qed.

Lemma convert_time_uses_the_date_only_witness :
  convert_time Sample.E2025 "Asia/Kolkata" "10:00" "UTC"
  = convert_time (Sample.E None None (Sample.at_utc 2025 4 2 1 2 3))
                 "Asia/Kolkata" "10:00" "UTC".
Proof.
  apply (convert_time_uses_the_date_only
           Sample.E2025 (Sample.E None None (Sample.at_utc 2025 4 2 1 2 3))
           "Asia/Kolkata" "10:00" "UTC" (Sample.fixed 19800)
           (Datetime.mk 2025 4 2 18 4 56 0 0) (Datetime.mk 2025 4 2 6 32 3 0 0)).
  - reflexivity.
  - reflexivity.
  - vm_compute. reflexivity.
  - vm_compute. reflexivity.
  - repeat split.
Defined.



(** X13. In an environment of coherent zones the target date-time is the
    source date-time moved by the difference of the two offsets; when the
    offsets are equal the target shows the wall-clock time of the source to
    the second and the two texts are equal. *)
Theorem target_is_source_moved_by_the_difference
  (E : env) (source_tz time_str target_tz : string) (r : TimeConversionResult) :
  env_wf E ->
  convert_time E source_tz time_str target_tz = Ok r ->
  exists source_time target_time,
    conversion E source_tz time_str target_tz = Ok (source_time, target_time)
    /\ Datetime.seconds (fields target_time) - Datetime.seconds (fields source_time)
       = aware_utcoffset target_time - aware_utcoffset source_time
    /\ (aware_utcoffset target_time = aware_utcoffset source_time ->
        same_wall_clock (fields target_time) (fields source_time)
        /\ datetime (target r) = datetime (source r)).
Proof.
  intros [Hwf Hclk] H.
  destruct (convert_time_ok_inv _ _ _ _ _ H) as (st & tt & Hc & ->).
  destruct (conversion_inv _ _ _ _ _ _ Hc)
    as (rs & rt & h & m & n & Hs & Ht & Hp & Hn & Hst & Ha).
  destruct (Hwf _ _ Hs) as [Hcs _].
  destruct (Hcs _ _ Hclk Hn) as [Vn _].
  assert (Vst : Datetime.valid (fields st))
    by (subst st; exact (source_time_valid n h m time_str Vn Hp)).
  destruct (astimezone_same_instant st tt {| key := target_tz; rules := rt |} Vst
              (Hwf _ _ Ht) Ha) as [Vtt Hi].
  exists st, tt. split; [exact Hc|]. unfold instant in Hi. split; [lia|].
  intros Ho.
  assert (Heq : Datetime.seconds (fields tt) = Datetime.seconds (fields st)) by lia.
  assert (W : same_wall_clock (fields tt) (fields st)).
  { destruct (seconds_inj _ _ Vtt Vst Heq) as (? & ? & ? & ?).
    unfold same_wall_clock, same_date, same_time_of_day. tauto. }
  split; [exact W|].
  unfold conversion_result. cbn [source target datetime].
  unfold aware_isoformat_seconds. rewrite Ho.
  now apply isoformat_same_wall_clock.
Qed.

Lemma target_is_source_moved_by_the_difference_witness :
  exists source_time target_time,
    conversion Sample.E2025 "UTC" "23:30" "Asia/Shanghai" = Ok (source_time, target_time)
    /\ Datetime.seconds (fields target_time) - Datetime.seconds (fields source_time)
       = aware_utcoffset target_time - aware_utcoffset source_time.
Proof.
  destruct (target_is_source_moved_by_the_difference
              Sample.E2025 "UTC" "23:30" "Asia/Shanghai" _
              (sample_env_wf _ _ _ sample_clock_2025_valid) sample_run_shanghai)
    as (st & tt & Hc & Hd & _).
  exists st, tt. split; [exact Hc|exact Hd].
Defined.

(** ** The texts of the result *)

Section ResultTexts.

Import Datetime.

Lemma isoformat_naive_digits (w : t) :
  valid w ->
  isoformat_naive w
  = (four_digits (year w) ++ "-" ++ two_digits (month w) ++ "-"
     ++ two_digits (day w) ++ "T" ++ two_digits (hour w) ++ ":"
     ++ two_digits (minute w) ++ ":" ++ two_digits (second w))%string.
Proof.
  intros (Hy & (Hm & Hd) & Hh & Hmi & Hs & _).
  assert (Hdim : Calendar.days_in_month (year w) (month w) <= 31).
  { unfold Calendar.days_in_month.
    destruct ((month w =? 2) && Calendar.is_leap (year w)); [lia|].
    assert (Hc : month w = 1 \/ month w = 2 \/ month w = 3 \/ month w = 4
                 \/ month w = 5 \/ month w = 6 \/ month w = 7 \/ month w = 8
                 \/ month w = 9 \/ month w = 10 \/ month w = 11 \/ month w = 12) by lia.
    decompose [or] Hc; match goal with H : month w = _ |- _ => rewrite H end;
      cbn; lia. }
  unfold Calendar.MINYEAR, Calendar.MAXYEAR in Hy.
  unfold isoformat_naive.
  rewrite zfill4_four_digits by lia.
  now rewrite !zfill2_two_digits by lia.
Qed.

Lemma date_of_text (w : t) (off : option Z) :
  valid w ->
  substring 0 10 (isoformat_seconds w off)
  = (four_digits (year w) ++ "-" ++ two_digits (month w) ++ "-"
     ++ two_digits (day w))%string.
Proof.
  intros V. unfold isoformat_seconds. rewrite (isoformat_naive_digits w V).
  unfold four_digits, two_digits. cbn [String.append substring].
  reflexivity.
Qed.

Lemma time_of_text (w : t) (off : option Z) :
  valid w ->
  substring 11 8 (isoformat_seconds w off)
  = (two_digits (hour w) ++ ":" ++ two_digits (minute w) ++ ":"
     ++ two_digits (second w))%string.
Proof.
  intros V. unfold isoformat_seconds. rewrite (isoformat_naive_digits w V).
  unfold four_digits, two_digits. cbn [String.append substring].
  now destruct (format_offset off).
Qed.

End ResultTexts.

(** X7. What [convert_time] returns names the two zones as the caller
    wrote them, and in an environment of coherent zones the text of the
    source shows, after the date, the hour and the minute read from
    [time_str], each in two digits, and no seconds. *)
Theorem convert_time_echoes_its_arguments
  (E : env) (source_tz time_str target_tz : string) (r : TimeConversionResult) :
  env_wf E ->
  convert_time E source_tz time_str target_tz = Ok r ->
  timezone (source r) = source_tz
  /\ timezone (target r) = target_tz
  /\ exists h m,
       Strptime.spec_HHMM time_str h m
       /\ substring 11 8 (datetime (source r))
          = (two_digits h ++ ":" ++ two_digits m ++ ":00")%string.
Proof.
  intros [Hwf Hclk] H.
  destruct (convert_time_ok_inv _ _ _ _ _ H) as (st & tt & Hc & ->).
  destruct (conversion_inv _ _ _ _ _ _ Hc)
    as (rs & rt & h & m & n & Hs & Ht & Hp & Hn & Hst & Ha).
  destruct (Hwf _ _ Hs) as [Hcs _].
  destruct (Hcs _ _ Hclk Hn) as [Vn _].
  assert (Vst : Datetime.valid (fields st))
    by (subst st; exact (source_time_valid n h m time_str Vn Hp)).
  unfold conversion_result. cbn [source target timezone datetime].
  repeat split. exists h, m. split; [now apply strptime_HM_spec|].
  unfold aware_isoformat_seconds. rewrite (time_of_text _ _ Vst).
  subst st. reflexivity.
Qed.

Lemma convert_time_echoes_its_arguments_witness :
  exists h m,
    Strptime.spec_HHMM "23:30" h m
    /\ substring 11 8 "2025-04-02T23:30:00+00:00"
       = (two_digits h ++ ":" ++ two_digits m ++ ":00")%string.
Proof.
  exact (proj2 (proj2 (convert_time_echoes_its_arguments
                         Sample.E2025 "UTC" "23:30" "Asia/Shanghai" _
                         (sample_env_wf _ _ _ sample_clock_2025_valid)
                         sample_run_shanghai))).
Defined.

(** X8. The two tools agree on the day: in an environment of coherent
    zones, the date in the text of the source of [convert_time] is the date
    in the text that [get_current_time] gives for the source zone at the
    same clock. *)
Theorem convert_time_is_on_the_current_date
  (E : env) (source_tz time_str target_tz : string)
  (c : TimeResult) (r : TimeConversionResult) :
  env_wf E ->
  source_tz <> "local"%string ->
  get_current_time E source_tz = Ok c ->
  convert_time E source_tz time_str target_tz = Ok r ->
  substring 0 10 (datetime (source r)) = substring 0 10 (datetime c).
Proof.
  intros [Hwf Hclk] Hnl Hg H.
  destruct (convert_time_ok_inv _ _ _ _ _ H) as (st & tt & Hc & ->).
  destruct (conversion_inv _ _ _ _ _ _ Hc)
    as (rs & rt & h & m & n & Hs & Ht & Hp & Hn & Hst & Ha).
  destruct (Hwf _ _ Hs) as [Hcs _].
  destruct (Hcs _ _ Hclk Hn) as [Vn _].
  assert (Vst : Datetime.valid (fields st))
    by (subst st; exact (source_time_valid n h m time_str Vn Hp)).
  rewrite (get_current_time_named E source_tz Hnl) in Hg.
  rewrite (get_zoneinfo_ok E _ _ Hs) in Hg. cbn [bind] in Hg.
  unfold now in Hg. cbn [rules] in Hg. rewrite Hn in Hg. cbn [bind] in Hg.
  injection Hg as <-.
  unfold conversion_result. cbn [source datetime].
  unfold aware_isoformat_seconds. cbn [fields].
  rewrite (date_of_text _ _ Vst), (date_of_text _ _ Vn).
  subst st. reflexivity.
Qed.

Lemma convert_time_is_on_the_current_date_witness :
  substring 0 10 "2025-04-02T10:00:00+05:30" = substring 0 10 "2025-04-02T18:04:56+05:30".
Proof.
  exact (convert_time_is_on_the_current_date
           Sample.E2025 "Asia/Kolkata" "10:00" "UTC" _ _
           (sample_env_wf _ _ _ sample_clock_2025_valid)
           ltac:(discriminate) sample_run_now_kolkata sample_run_kolkata).
Defined.

(** ** The difference string, further *)

Section DifferenceStringMore.

Import PyFloat.

Lemma is_empty_append (s u : string) :
  PyStr.is_empty u = false -> PyStr.is_empty (s ++ u) = false.
Proof. intros H. destruct s; [exact H|reflexivity]. Qed.

Lemma rstrip_append (c : ascii) (s u : string) :
  PyStr.is_empty (PyStr.rstrip c u) = false ->
  PyStr.rstrip c (s ++ u) = (s ++ PyStr.rstrip c u)%string.
Proof.
  intros H. induction s as [|a s IH]; [reflexivity|].
  cbn [String.append PyStr.rstrip]. rewrite IH.
  now rewrite (is_empty_append s _ H).
Qed.

Lemma rstrip_sign_char (c : ascii) (sg : bool) (s : string) :
  c = "0"%char \/ c = "."%char ->
  PyStr.rstrip c (sign_char sg ++ s) = (sign_char sg ++ PyStr.rstrip c s)%string.
Proof.
  intros [-> | ->]; destruct sg; simpl; rewrite Bool.andb_false_r; reflexivity.
Qed.

Lemma time_diff_str_finite (sg : bool) (m : positive) (e : Z) :
  time_diff_str (S754_finite sg m e) = (sign_char sg ++ unsigned_diff m e)%string.
Proof.
  unfold time_diff_str, unsigned_diff.
  change (is_integer (S754_finite sg m e)) with (is_integer (S754_finite false m e)).
  destruct (is_integer (S754_finite false m e)); unfold format_plus_f.
  - now rewrite append_assoc.
  - now rewrite !rstrip_sign_char, append_assoc by auto.
Qed.

End DifferenceStringMore.

(** X9. Offsets that differ by a whole number of quarters of an hour, as
    those of the zones in use do, are printed exactly: the sign, the whole
    hours, and [.0h], [.25h], [.5h] or [.75h]. *)
Theorem quarter_hours_print_exactly (target_offset source_offset : Z) :
  -86400 < target_offset < 86400 ->
  -86400 < source_offset < 86400 ->
  (target_offset - source_offset) mod 900 = 0 ->
  let d := target_offset - source_offset in
  time_diff_str (hours_difference target_offset source_offset)
  = (sign_of d ++ PyStr.decimal (Z.abs d / 3600)
     ++ quarter_suffix (Z.abs d mod 3600 / 900))%string.
Proof.
  intros Ht Hs Hq d. rewrite hours_difference_shift. fold d.
  destruct (Z.eq_dec d 0) as [Hz|Hnz]; [rewrite Hz; reflexivity|].
  destruct (hours_difference_shape d Hnz ltac:(lia)) as (m & e & Hh & _ & Hi & H1 & H2).
  rewrite Hh. unfold time_diff_str. rewrite Hi.
  destruct (Z.eqb_spec (d mod 3600) 0) as [Hm|Hm].
  - unfold PyFloat.format_plus_f. rewrite (H1 Hm), fixed_1_tenfold, sign_char_sign_of.
    replace (Z.abs d mod 3600 / 900) with 0 by lia.
    now rewrite !append_assoc.
  - specialize (H2 Hm). unfold PyFloat.format_plus_f.
    set (N := PyFloat.scaled_round 2 m e) in *.
    set (q := Z.abs d mod 3600 / 900).
    assert (Hq' : 1 <= q <= 3) by (subst q; lia).
    assert (HN : N / 100 = Z.abs d / 3600 /\ N mod 100 = 25 * q) by (subst q; lia).
    destruct HN as [HN1 HN2].
    unfold PyFloat.fixed. change (10 ^ Z.of_nat 2) with 100.
    rewrite HN1, HN2, sign_char_sign_of.
    set (dec := PyStr.decimal (Z.abs d / 3600)).
    rewrite <- !append_assoc.
    assert (Hc : q = 1 \/ q = 2 \/ q = 3) by lia.
    destruct Hc as [-> | [-> | ->]]; cbn [Z.mul Pos.mul quarter_suffix];
      rewrite !append_assoc;
      rewrite <- (append_assoc (sign_of d) dec);
      rewrite (rstrip_append "0" (sign_of d ++ dec)) by reflexivity;
      rewrite (rstrip_append "." (sign_of d ++ dec)) by reflexivity;
      rewrite !append_assoc; reflexivity.
Qed.

Lemma quarter_hours_print_exactly_witness :
  time_diff_str (hours_difference 20700 0) = "+5.75h"%string.
Proof.
  exact (quarter_hours_print_exactly 20700 0 ltac:(lia) ltac:(lia) eq_refl).
Defined.

(** X10. Exchanging the two offsets changes the sign of the difference
    string and nothing else. *)
Theorem exchanging_the_offsets_flips_the_sign (target_offset source_offset : Z) :
  -86400 < target_offset < 86400 ->
  -86400 < source_offset < 86400 ->
  target_offset <> source_offset ->
  exists body,
    time_diff_str (hours_difference target_offset source_offset)
    = (sign_of (target_offset - source_offset) ++ body)%string
    /\ time_diff_str (hours_difference source_offset target_offset)
       = (sign_of (source_offset - target_offset) ++ body)%string
    /\ sign_of (target_offset - source_offset)
       <> sign_of (source_offset - target_offset).
Proof.
  intros Ht Hs Hne.
  set (d := target_offset - source_offset).
  assert (Hnz : d <> 0) by (subst d; lia).
  destruct (hours_difference_shape d Hnz ltac:(subst d; lia)) as (m & e & Hh & _).
  exists (unsigned_diff m e).
  rewrite (hours_difference_shift target_offset), (hours_difference_shift source_offset).
  fold d. replace (source_offset - target_offset) with (- d) by (subst d; lia).
  rewrite hours_difference_opp by exact Hnz. rewrite Hh. cbn [SFopp].
  rewrite !time_diff_str_finite.
  unfold sign_of, PyFloat.sign_char.
  destruct (Z.ltb_spec d 0), (Z.ltb_spec (- d) 0); try lia;
    repeat split; try reflexivity; discriminate.
Qed.

Lemma exchanging_the_offsets_flips_the_sign_witness :
  exists body,
    time_diff_str (hours_difference 0 19800) = ("-" ++ body)%string
    /\ time_diff_str (hours_difference 19800 0) = ("+" ++ body)%string.
Proof.
  destruct (exchanging_the_offsets_flips_the_sign 0 19800 ltac:(lia) ltac:(lia)
              ltac:(lia)) as (body & H1 & H2 & _).
  exists body. split; [exact H1|exact H2].
Defined.

(** X12. The time that [convert_time] shows for the source can be handed
    back: in an environment of coherent zones, calling it again with the
    [HH:MM] of the source text (and the same zones and clock) gives the same
    result. *)
Theorem convert_time_accepts_its_own_text
  (E : env) (source_tz time_str target_tz : string) (r : TimeConversionResult) :
  env_wf E ->
  convert_time E source_tz time_str target_tz = Ok r ->
  convert_time E source_tz (substring 11 5 (datetime (source r))) target_tz = Ok r.
Proof.
  intros [Hwf Hclk] H.
  destruct (convert_time_ok_inv _ _ _ _ _ H) as (st & tt & Hc & Hr).
  destruct (conversion_inv _ _ _ _ _ _ Hc)
    as (rs & rt & h & m & n & Hs & Ht & Hp & Hn & Hst & Ha).
  destruct (Hwf _ _ Hs) as [Hcs _].
  destruct (Hcs _ _ Hclk Hn) as [Vn _].
  assert (Vst : Datetime.valid (fields st))
    by (subst st; exact (source_time_valid n h m time_str Vn Hp)).
  assert (Htxt : substring 11 5 (datetime (source r))
                 = (two_digits h ++ ":" ++ two_digits m)%string).
  { rewrite Hr. unfold conversion_result. cbn [source datetime].
    unfold aware_isoformat_seconds, Datetime.isoformat_seconds.
    rewrite (isoformat_naive_digits _ Vst). subst st.
    unfold four_digits, two_digits. cbn [String.append substring fields Datetime.new
      Datetime.hour Datetime.minute]. reflexivity. }
  rewrite Htxt, <- H.
  destruct (proj1 (strptime_HM_spec _ _ _) Hp)
    as (hs & ms & _ & (_ & _ & _ & Hh) & (_ & _ & _ & Hm)).
  unfold convert_time, conversion.
  assert (Hp1 : Strptime.strptime_HM (two_digits h ++ ":" ++ two_digits m) = Ok (h, m)).
  { apply strptime_HM_complete. exists (two_digits h), (two_digits m).
    split; [reflexivity|]. split; apply field_two_digits; lia. }
  now rewrite Hp1, Hp.
Qed.

Lemma convert_time_accepts_its_own_text_witness :
  convert_time Sample.E2025 "UTC" (substring 11 5 "2025-04-02T23:30:00+00:00") "Asia/Shanghai"
  = Ok {| source := {| timezone := "UTC";
                       datetime := "2025-04-02T23:30:00+00:00";
                       is_dst := false |};
          target := {| timezone := "Asia/Shanghai";
                       datetime := "2025-04-03T07:30:00+08:00";
                       is_dst := false |};
          time_difference := "+8.0h" |}.
Proof.
  exact (convert_time_accepts_its_own_text Sample.E2025 "UTC" "23:30" "Asia/Shanghai" _
           (sample_env_wf _ _ _ sample_clock_2025_valid) sample_run_shanghai).
Defined.

(** X14. Only the reading of [time_str] is guarded: when the source
    date-time less its offset falls before year 1 or after year 9999, the
    conversion to another zone fails with [OverflowError], which
    [convert_time] lets through as it is. *)
Theorem convert_time_lets_overflow_through
  (E : env) (source_tz time_str target_tz : string)
  (rs rt : tzinfo) (h m : Z) (n : Datetime.t) :
  zoneinfo_db E source_tz = Ok rs ->
  zoneinfo_db E target_tz = Ok rt ->
  source_tz <> target_tz ->
  Strptime.spec_HHMM time_str h m ->
  fromutc rs (utcnow E) = Ok n ->
  let source_fields :=
    Datetime.new (Datetime.year n) (Datetime.month n) (Datetime.day n) h m in
  let utc_seconds := Datetime.seconds source_fields - utcoffset rs source_fields in
  utc_seconds < 86400 \/ (Calendar.MAXORDINAL + 1) * 86400 <= utc_seconds ->
  convert_time E source_tz time_str target_tz
  = Err (OverflowError "date value out of range").
Proof.
  intros Hs Ht Hne Hp Hn st secs Hout.
  apply strptime_HM_complete in Hp.
  unfold convert_time, conversion.
  rewrite (get_zoneinfo_ok E _ _ Hs), (get_zoneinfo_ok E _ _ Ht). cbn [bind].
  rewrite Hp. cbn [except_ValueError bind fst snd].
  unfold now. cbn [rules]. rewrite Hn. cbn [bind fields].
  unfold astimezone, same_object. cbn [key zone].
  destruct (String.eqb_spec target_tz source_tz) as [Heq|_]; [congruence|].
  unfold aware_utcoffset. cbn [fields zone rules]. fold st.
  unfold Datetime.sub, Datetime.add. cbv zeta.
  subst secs. unfold Datetime.seconds in Hout. unfold Calendar.MAXORDINAL in *.
  set (o := Datetime.toordinal st) in *.
  set (tod := Datetime.hour st * 3600 + Datetime.minute st * 60 + Datetime.second st) in *.
  set (off := utcoffset rs st) in *.
  replace (o * 86400 + Datetime.hour st * 3600 + Datetime.minute st * 60
           + Datetime.second st) with (o * 86400 + tod) in Hout by (subst tod; lia).
  destruct ((0 <? o + (tod + - off) / 86400) && (o + (tod + - off) / 86400 <=? 3652059))
    eqn:Hr; [|reflexivity].
  apply andb_prop in Hr as [H1 H2]. apply Z.ltb_lt in H1. apply Z.leb_le in H2.
  clearbody o tod off. lia.
Qed.

Lemma convert_time_lets_overflow_through_witness :
  convert_time (Sample.E None None (Sample.at_utc 1 1 1 0 0 0))
               "Asia/Shanghai" "00:00" "UTC"
  = Err (OverflowError "date value out of range").
Proof.
  apply (convert_time_lets_overflow_through
           (Sample.E None None (Sample.at_utc 1 1 1 0 0 0))
           "Asia/Shanghai" "00:00" "UTC" (Sample.fixed 28800) (Sample.fixed 0) 0 0
           (Datetime.mk 1 1 1 8 0 0 0 0)).
  - reflexivity.
  - reflexivity.
  - discriminate.
  - apply strptime_HM_sound. reflexivity.
  - vm_compute. reflexivity.
  - left. vm_compute. reflexivity.
Defined.
